(** * nanobot: a shallow embedding of the provider, bus, tool and CLI helper code

  The Python sources are embedded as executable Rocq definitions, one
  module per source file.  Python dictionaries are [gmap]s, optional
  values ([x | None]) are [option]s, and a call that may raise returns an
  [outcome].  The properties proved about the definitions come after all
  of them, in the second half of the file. *)

From Stdlib Require Import ZArith String Ascii List Bool Lia.
From Stdlib Require Import Floats.PrimFloat.
From stdpp Require Import base option list strings gmap.

Set Warnings "-register-all".

Local Open Scope string_scope.
Local Open Scope Z_scope.

(* ===================================================================== *)
(** * Part I.  Definitions                                                *)
(* ===================================================================== *)

(** ** Python values, exceptions and call binding *)

Module Py.

(** JSON-shaped Python data: what a tool-call argument, a message or a
    tool schema is made of.  A [JDict] keeps its items in insertion
    order, as a Python dict does. *)
Inductive json : Type :=
| JNull
| JBool (b : bool)
| JInt (z : Z)
| JFloat (f : float)
| JStr (s : string)
| JList (l : list json)
| JDict (items : list (string * json)).

(** [isinstance(v, str)] *)
Definition is_str (v : json) : bool :=
  match v with JStr _ => true | _ => false end.


(** The direct subclasses of [BaseException].  Everything an
    [except Exception] clause matches is an [Exception_sub]; the other
    four are the built-in classes that derive from [BaseException] only
    ([asyncio.CancelledError] since Python 3.8). *)
Inductive exn_class : Type :=
| Exception_sub (name : string)
| KeyboardInterrupt
| SystemExit
| GeneratorExit
| CancelledError.

(** A raised exception object: its class and [str(e)]. *)
Record exn : Type := Exn { exn_class_of : exn_class; exn_str : string }.

(** [isinstance(e, Exception)], the test of [except Exception]. *)
Definition isinstance_Exception (e : exn) : bool :=
  match exn_class_of e with
  | Exception_sub _ => true
  | _ => false
  end.

Definition TypeError (msg : string) : exn := Exn (Exception_sub "TypeError") msg.
Definition IndexError (msg : string) : exn := Exn (Exception_sub "IndexError") msg.

Definition is_TypeError (e : exn) : bool :=
  match exn_class_of e with
  | Exception_sub n => String.eqb n "TypeError"
  | _ => false
  end.

(** The result of evaluating a call: it returns a value or raises. *)
Inductive outcome (A : Type) : Type :=
| Returns (a : A)
| Raises (e : exn).
Arguments Returns {A} a.
Arguments Raises {A} e.

Definition bind {A B} (m : outcome A) (k : A -> outcome B) : outcome B :=
  match m with
  | Returns a => k a
  | Raises e => Raises e
  end.

(** [try: m  except Exception as e: h e].  An exception that is not an
    instance of [Exception] passes through the handler. *)
Definition try_except_Exception {A} (m : outcome A) (h : exn -> outcome A)
  : outcome A :=
  match m with
  | Returns a => Returns a
  | Raises e => if isinstance_Exception e then h e else Raises e
  end.

(** Truthiness of [str | None]: [None] and the empty string are falsy. *)
Definition truthy_str (s : option string) : bool :=
  match s with
  | Some EmptyString => false
  | Some _ => true
  | None => false
  end.

(** [a or d] for [a : str | None] and [d : str]. *)
Definition str_or (a : option string) (d : string) : string :=
  match a with
  | Some s => if truthy_str a then s else d
  | None => d
  end.

(** The signature of a [def], as far as binding keyword arguments goes:
    the parameters already filled positionally (the [self] of a bound
    method), those that have no default, those that have one, and whether
    a [**kwargs] collects the rest. *)
Record signature : Type := Signature {
  sig_name : string;
  sig_positional : list string;
  sig_required : list string;
  sig_optional : list string;
  sig_var_keyword : bool
}.

Definition mem (x : string) (l : list string) : bool :=
  existsb (String.eqb x) l.

(** Keyword names that clash with a parameter filled positionally. *)
Definition duplicated (sg : signature) (kw : list string) : list string :=
  List.filter (fun k => mem k (sig_positional sg)) kw.

(** Keyword names no parameter accepts. *)
Definition unexpected (sg : signature) (kw : list string) : list string :=
  if sig_var_keyword sg then []
  else List.filter
         (fun k => negb (mem k (sig_positional sg ++ sig_required sg ++ sig_optional sg)%list))
         kw.

(** Required parameters the call leaves unfilled. *)
Definition missing (sg : signature) (kw : list string) : list string :=
  List.filter (fun p => negb (mem p kw)) (sig_required sg).

(** Binding the keyword arguments of a call that splats the dict [kwargs]:
    Python raises [TypeError] for a keyword that repeats a positional
    parameter, for a keyword the function does not accept, and for a
    required parameter left without a value; the text names the first
    offender.  On success the arguments are handed to the body unchanged. *)
Definition bind_keywords {V} (sg : signature) (kwargs : gmap string V)
  : outcome (gmap string V) :=
  let kw := (map_to_list kwargs).*1 in
  match duplicated sg kw, unexpected sg kw, missing sg kw with
  | k :: _, _, _ =>
      Raises (TypeError (sig_name sg +:+ "() got multiple values for argument '" +:+ k +:+ "'"))
  | [], k :: _, _ =>
      Raises (TypeError (sig_name sg +:+ "() got an unexpected keyword argument '" +:+ k +:+ "'"))
  | [], [], p :: _ =>
      Raises (TypeError (sig_name sg +:+ "() missing 1 required positional argument: '" +:+ p +:+ "'"))
  | [], [], [] => Returns kwargs
  end.

End Py.

(** ** nanobot/bus/events.py *)

Module Events.

(** [datetime] values are kept as an opaque clock reading. *)
Definition datetime : Type := Z.

Record UserMessage : Type := mkUserMessage {
  um_content : string;
  um_timestamp : datetime
}.

Record AssistantMessage : Type := mkAssistantMessage {
  am_content : string;
  am_timestamp : datetime
}.

End Events.

(** ** nanobot/bus/queue.py *)

Module Queue.
Import Events.

(** An [asyncio.Queue()] with the default [maxsize=0]: a deque that [put]
    extends on the right without ever waiting and that [get] pops on the
    left.  [qsize] is the number of items in the deque. *)
Definition put {A} (q : list A) (x : A) : list A := (q ++ [x])%list.

(** [get] completes only when the deque is not empty; on an empty deque
    the caller stays suspended, which is [None] here. *)
Definition get {A} (q : list A) : option (A * list A) :=
  match q with
  | [] => None
  | x :: q' => Some (x, q')
  end.

Definition qsize {A} (q : list A) : nat := length q.

Record MessageBus : Type := mkMessageBus {
  inbound : list UserMessage;
  outbound : list AssistantMessage
}.

(** [MessageBus.__init__] *)
Definition init : MessageBus := mkMessageBus [] [].

Definition publish_inbound (bus : MessageBus) (msg : UserMessage) : MessageBus :=
  mkMessageBus (put (inbound bus) msg) (outbound bus).

Definition consume_inbound (bus : MessageBus) : option (UserMessage * MessageBus) :=
  match get (inbound bus) with
  | Some (msg, q) => Some (msg, mkMessageBus q (outbound bus))
  | None => None
  end.

Definition publish_outbound (bus : MessageBus) (msg : AssistantMessage) : MessageBus :=
  mkMessageBus (inbound bus) (put (outbound bus) msg).

Definition consume_outbound (bus : MessageBus) : option (AssistantMessage * MessageBus) :=
  match get (outbound bus) with
  | Some (msg, q) => Some (msg, mkMessageBus (inbound bus) q)
  | None => None
  end.

Definition inbound_size (bus : MessageBus) : nat := qsize (inbound bus).
Definition outbound_size (bus : MessageBus) : nat := qsize (outbound bus).

(** A client of the bus performs these calls, in some interleaving. *)
Inductive call : Type :=
| PublishInbound (msg : UserMessage)
| ConsumeInbound
| PublishOutbound (msg : AssistantMessage)
| ConsumeOutbound.

(** What the calls made so far have delivered to their callers, per
    queue and in the order of delivery. *)
Record delivered : Type := mkDelivered {
  from_inbound : list UserMessage;
  from_outbound : list AssistantMessage
}.

Definition step (st : MessageBus * delivered) (c : call) : MessageBus * delivered :=
  let '(bus, d) := st in
  match c with
  | PublishInbound msg => (publish_inbound bus msg, d)
  | PublishOutbound msg => (publish_outbound bus msg, d)
  | ConsumeInbound =>
      match consume_inbound bus with
      | Some (msg, bus') => (bus', mkDelivered (from_inbound d ++ [msg]) (from_outbound d))
      | None => (bus, d)
      end
  | ConsumeOutbound =>
      match consume_outbound bus with
      | Some (msg, bus') => (bus', mkDelivered (from_inbound d) (from_outbound d ++ [msg]))
      | None => (bus, d)
      end
  end.

Definition run (calls : list call) (st : MessageBus * delivered) : MessageBus * delivered :=
  fold_left step calls st.

(** The messages a sequence of calls publishes on each queue. *)
Definition published_inbound (calls : list call) : list UserMessage :=
  flat_map (fun c => match c with PublishInbound m => [m] | _ => [] end) calls.

Definition published_outbound (calls : list call) : list AssistantMessage :=
  flat_map (fun c => match c with PublishOutbound m => [m] | _ => [] end) calls.

(** A new bus, nothing delivered yet. *)
Definition fresh : MessageBus * delivered := (init, mkDelivered [] []).

(** What concerns the inbound queue in a state of the bus and its
    clients, and the same for the outbound queue. *)
Definition inbound_view (st : MessageBus * delivered) :=
  (inbound st.1, from_inbound st.2).

Definition outbound_view (st : MessageBus * delivered) :=
  (outbound st.1, from_outbound st.2).

(** The calls that touch one queue only. *)
Definition on_inbound (c : call) : bool :=
  match c with PublishInbound _ | ConsumeInbound => true | _ => false end.

Definition on_outbound (c : call) : bool :=
  match c with PublishOutbound _ | ConsumeOutbound => true | _ => false end.

End Queue.

(** ** nanobot/providers/base.py *)

Module Base.
Import Py.

(** Modelled from the spec: the dataclass [ToolCallRequest] of
    nanobot/providers/base.py, {id, name, arguments}.  The arguments are
    whatever the provider stores there, so they are a [json] value. *)
Record ToolCallRequest : Type := mkToolCallRequest {
  tc_id : string;
  tc_name : string;
  tc_arguments : json
}.

(** Modelled from the spec: the dataclass [LLMResponse] of
    nanobot/providers/base.py, {content (nullable), tool_calls,
    finish_reason, usage}. *)
Record LLMResponse : Type := mkLLMResponse {
  content : option string;
  tool_calls : list ToolCallRequest;
  finish_reason : string;
  usage : gmap string Z
}.

(** Modelled from the spec: the defaults of [LLMResponse] in
    nanobot/providers/base.py.  [LLMResponse(content=c, finish_reason=r)]
    leaves the other two fields at an empty list and an empty dict. *)
Definition LLMResponse_of (c : option string) (r : string) : LLMResponse :=
  mkLLMResponse c [] r ∅.

End Base.

(** ** The backend's reply

    The object [litellm.acompletion] returns, with the attributes
    [_parse_response] reads. *)

Module Backend.
Import Py.

(** An attribute the code guards with [hasattr]. *)
Inductive attr (A : Type) : Type :=
| Absent
| Attr (v : A).
Arguments Absent {A}.
Arguments Attr {A} v.

Record Function : Type := mkFunction {
  function_name : string;
  function_arguments : json
}.

Record ToolCall : Type := mkToolCall {
  tool_call_id : string;
  function : Function
}.

Record Message : Type := mkMessage {
  message_content : option string;
  message_tool_calls : attr (option (list ToolCall))
}.

Record Choice : Type := mkChoice {
  message : Message;
  choice_finish_reason : option string
}.

Record Usage : Type := mkUsage {
  prompt_tokens : Z;
  completion_tokens : Z;
  total_tokens : Z
}.

Record ModelResponse : Type := mkModelResponse {
  choices : list Choice;
  response_usage : attr (option Usage)
}.

(** [hasattr(o, a) and o.a] as a condition, for an attribute holding a list
    or [None]. *)
Definition has_items {A} (a : attr (option (list A))) : list A :=
  match a with
  | Attr (Some l) => l
  | _ => []
  end.

End Backend.

(** ** nanobot/providers/litellm_provider.py *)

Module LiteLLM.
Import Py Base Backend.

(** The process-wide settings [__init__] writes. *)
Record runtime : Type := mkRuntime {
  environ : gmap string string;
  litellm_api_base : option string;
  litellm_suppress_debug_info : bool;
  litellm_drop_params : bool
}.

Record LiteLLMProvider : Type := mkLiteLLMProvider {
  api_key : option string;
  api_base : option string;
  default_model : string
}.

Definition init_signature : signature :=
  Signature "LiteLLMProvider.__init__" ["self"] []
            ["api_key"; "api_base"; "default_model"] false.

Definition as_str (v : option json) : option string :=
  match v with
  | Some (JStr s) => Some s
  | _ => None
  end.

(** The body of [__init__], on the bound arguments.  The base class
    [LLMProvider] of nanobot/providers/base.py keeps [api_key] and
    [api_base] as attributes; [chat] reads [self.api_key]. *)
Definition init_body (rt : runtime) (bound : gmap string json)
  : LiteLLMProvider * runtime :=
  let api_key := as_str (bound !! "api_key") in
  let api_base := as_str (bound !! "api_base") in
  let default_model :=
    match bound !! "default_model" with
    | Some (JStr s) => s
    | _ => "openrouter/anthropic/claude-3-5-sonnet"
    end in
  let env :=
    match api_key with
    | Some k => if truthy_str api_key then <["OPENROUTER_API_KEY" := k]> (environ rt)
                else environ rt
    | None => environ rt
    end in
  let base :=
    match api_base with
    | Some b => if truthy_str api_base then b else "https://openrouter.ai/api/v1"
    | None => "https://openrouter.ai/api/v1"
    end in
  (mkLiteLLMProvider api_key api_base default_model,
   mkRuntime env (Some base) true true).


(** Constructing a [LiteLLMProvider] from keywords: they are bound against the
    parameters of [__init__] before its body runs. *)
Definition LiteLLMProvider_new (rt : runtime) (kwargs : gmap string json)
  : outcome (LiteLLMProvider * runtime) :=
  bind (bind_keywords init_signature kwargs) (fun bound => Returns (init_body rt bound)).

Section Chat.

(** The two library calls the provider makes: [litellm.acompletion], given
    the keyword arguments of the request, and [json_repair.loads]. *)
Variable acompletion : gmap string json -> outcome ModelResponse.
Variable json_repair_loads : string -> outcome json.

(** The loop body over [message.tool_calls]. *)
Definition parse_tool_call (tc : ToolCall) : outcome ToolCallRequest :=
  let args := function_arguments (function tc) in
  bind (match args with
        | JStr s => json_repair_loads s
        | _ => Returns args
        end)
       (fun args => Returns (mkToolCallRequest (tool_call_id tc)
                                               (function_name (function tc)) args)).

Fixpoint parse_tool_calls (tcs : list ToolCall) : outcome (list ToolCallRequest) :=
  match tcs with
  | [] => Returns []
  | tc :: rest =>
      bind (parse_tool_call tc) (fun r =>
      bind (parse_tool_calls rest) (fun rs => Returns (r :: rs)))
  end.

Definition parse_usage (u : attr (option Usage)) : gmap string Z :=
  match u with
  | Attr (Some u) =>
      <["prompt_tokens" := prompt_tokens u]>
        (<["completion_tokens" := completion_tokens u]>
           (<["total_tokens" := total_tokens u]> ∅))
  | _ => ∅
  end.

Definition _parse_response (response : ModelResponse) : outcome LLMResponse :=
  match choices response with
  | [] => Raises (IndexError "list index out of range")
  | choice :: _ =>
      let message := message choice in
      bind (parse_tool_calls (has_items (message_tool_calls message))) (fun tool_calls =>
      let usage := parse_usage (response_usage response) in
      Returns (mkLLMResponse (message_content message)
                             tool_calls
                             (str_or (choice_finish_reason choice) "stop")
                             usage))
  end.

(** The keyword arguments [chat] calls [acompletion] with. *)
Definition chat_kwargs (self : LiteLLMProvider) (messages : list json)
    (tools : option (list json)) (model : option string)
    (max_tokens : Z) (temperature : float) : gmap string json :=
  let model := str_or model (default_model self) in
  let max_tokens := Z.max 1 max_tokens in
  let kwargs : gmap string json :=
    <["temperature" := JFloat temperature]>
      (<["max_tokens" := JInt max_tokens]>
         (<["messages" := JList messages]>
            (<["model" := JStr model]> ∅))) in
  let kwargs :=
    match api_key self with
    | Some k => if truthy_str (api_key self) then <["api_key" := JStr k]> kwargs else kwargs
    | None => kwargs
    end in
  match tools with
  | Some (t :: ts) => <["tool_choice" := JStr "auto"]> (<["tools" := JList (t :: ts)]> kwargs)
  | _ => kwargs
  end.

Definition chat (self : LiteLLMProvider) (messages : list json)
    (tools : option (list json)) (model : option string)
    (max_tokens : Z) (temperature : float) : outcome LLMResponse :=
  let kwargs := chat_kwargs self messages tools model max_tokens temperature in
  try_except_Exception
    (bind (acompletion kwargs) _parse_response)
    (fun e => Returns (LLMResponse_of (Some ("Error calling LLM: " +:+ exn_str e)) "error")).


End Chat.


(** The response [chat] builds in its exception handler. *)
Definition error_response (e : exn) : LLMResponse :=
  mkLLMResponse (Some ("Error calling LLM: " +:+ exn_str e)) [] "error" ∅.

(** A provider and a request for the examples: the one of the tests'
    configuration, asking one question. *)
Definition example_provider : LiteLLMProvider :=
  mkLiteLLMProvider (Some "sk-or-v1-test") None "openrouter/anthropic/claude-3-5-sonnet".

Definition example_messages : list json :=
  [JDict [("role", JStr "user"); ("content", JStr "What is 2+2")]].

End LiteLLM.

(** ** nanobot/agent/tools/message.py *)

Module MessageTool.
Import Py.

Definition name : string := "message".

Definition description : string :=
  "Send a message to the user. Use this when you want to communicate something.".

Definition parameters : json :=
  JDict [("type", JStr "object");
         ("properties",
          JDict [("content",
                  JDict [("type", JStr "string");
                         ("description", JStr "The message content to send")])]);
         ("required", JList [JStr "content"])].

(** [async def execute(self, content: str, **kwargs: Any) -> str] *)
Definition execute_signature : signature :=
  Signature "MessageTool.execute" ["self"] ["content"] [] true.

(** The body of [execute]; it reads neither [content] nor [kwargs]. *)
Definition execute_body (bound : gmap string json) : string := "Message displayed".

(** Calling [execute] with the dict [arguments] splatted into keywords. *)
Definition execute (arguments : gmap string json) : outcome string :=
  bind (bind_keywords execute_signature arguments)
       (fun bound => Returns (execute_body bound)).

End MessageTool.

(** ** The [str] methods the registry and the CLI helper use *)

Module Str.

(** [str.lower] on the ASCII letters. *)
Definition lower_ascii (c : ascii) : ascii :=
  let n := nat_of_ascii c in
  if ((65 <=? n) && (n <=? 90))%nat then ascii_of_nat (n + 32) else c.

Fixpoint lower (s : string) : string :=
  match s with
  | EmptyString => EmptyString
  | String c r => String (lower_ascii c) (lower r)
  end.

(** [needle in hay] *)
Fixpoint contains (needle hay : string) : bool :=
  String.prefix needle hay ||
  match hay with
  | EmptyString => false
  | String _ r => contains needle r
  end.

(** [s.split(sep)] for a one-character separator. *)
Fixpoint split (sep : ascii) (s : string) : list string :=
  match s with
  | EmptyString => [EmptyString]
  | String c r =>
      if Ascii.eqb c sep then EmptyString :: split sep r
      else match split sep r with
           | seg :: segs => String c seg :: segs
           | [] => [String c EmptyString]
           end
  end.

(** [str.isspace] on the ASCII characters: tab to carriage return, the
    four separators 28 to 31, and the space. *)
Definition is_space (c : ascii) : bool :=
  let n := nat_of_ascii c in
  (((9 <=? n) && (n <=? 13)) || ((28 <=? n) && (n <=? 32)))%nat.

Fixpoint lstrip (s : string) : string :=
  match s with
  | EmptyString => EmptyString
  | String c r => if is_space c then lstrip r else s
  end.

Fixpoint rstrip (s : string) : string :=
  match s with
  | EmptyString => EmptyString
  | String c r =>
      match rstrip r with
      | EmptyString => if is_space c then EmptyString else String c EmptyString
      | r' => String c r'
      end
  end.

(** [s.strip()] *)
Definition strip (s : string) : string := rstrip (lstrip s).

(** [s.startswith(p)] *)
Definition startswith (s p : string) : bool := String.prefix p s.

End Str.

(** ** nanobot/providers/registry.py *)

Module Registry.
Import Py.

Record ProviderSpec : Type := mkProviderSpec {
  name : string;
  keywords : list string;
  env_key : string;
  display_name : string;
  litellm_prefix : string;
  skip_prefixes : list string;
  env_extras : list (string * string);
  is_gateway : bool;
  is_local : bool;
  detect_by_key_prefix : string;
  detect_by_base_keyword : string;
  default_api_base : string;
  strip_model_prefix : bool;
  model_overrides : list (string * json);
  is_oauth : bool;
  is_direct : bool
}.

Definition PROVIDERS : list ProviderSpec :=
  [ mkProviderSpec "openrouter" ["openrouter"] "OPENROUTER_API_KEY" "OpenRouter"
                   "openrouter" [] [] true false "sk-or-" "openrouter"
                   "https://openrouter.ai/api/v1" false [] false false ].

Definition find_by_model (model : string) : option ProviderSpec :=
  let model_lower := Str.lower model in
  List.find (fun spec => existsb (fun kw => Str.contains kw model_lower) (keywords spec))
            PROVIDERS.

Definition find_by_name (n : string) : option ProviderSpec :=
  List.find (fun spec => String.eqb (name spec) n) PROVIDERS.

(** [find_gateway]; each of the three arguments may be [None]. *)
Definition find_gateway (provider_name api_key api_base : option string)
  : option ProviderSpec :=
  let by_name :=
    match provider_name with
    | Some n =>
        if truthy_str provider_name then
          match find_by_name n with
          | Some spec => if is_gateway spec || is_local spec then Some spec else None
          | None => None
          end
        else None
    | None => None
    end in
  match by_name with
  | Some spec => Some spec
  | None =>
      List.find
        (fun spec =>
           (truthy_str (Some (detect_by_key_prefix spec))
            && match api_key with
               | Some k => truthy_str api_key && Str.startswith k (detect_by_key_prefix spec)
               | None => false
               end)
           || (truthy_str (Some (detect_by_base_keyword spec))
               && match api_base with
                  | Some b => truthy_str api_base && Str.contains (detect_by_base_keyword spec) b
                  | None => false
                  end))
        PROVIDERS
  end.

End Registry.

(** ** nanobot/config/schema.py *)

Module Schema.

Record AgentDefaults : Type := mkAgentDefaults {
  workspace : string;
  model : string;
  max_tokens : Z;
  temperature : float;
  max_tool_iterations : Z;
  memory_window : Z
}.

Record AgentsConfig : Type := mkAgentsConfig { defaults : AgentDefaults }.

Record ProviderConfig : Type := mkProviderConfig {
  api_key : string;
  api_base : option string
}.

Record ProvidersConfig : Type := mkProvidersConfig {
  openrouter : ProviderConfig;
  ollama : ProviderConfig
}.

Record WebSearchConfig : Type := mkWebSearchConfig {
  search_api_key : string;
  max_results : Z
}.

Record WebToolsConfig : Type := mkWebToolsConfig { search : WebSearchConfig }.

Record ExecToolConfig : Type := mkExecToolConfig { timeout : Z }.

Record ToolsConfig : Type := mkToolsConfig {
  web : WebToolsConfig;
  exec : ExecToolConfig;
  restrict_to_workspace : bool
}.

Record Config : Type := mkConfig {
  agents : AgentsConfig;
  providers : ProvidersConfig;
  tools : ToolsConfig
}.

(** [Config()] *)
Definition default_config : Config :=
  mkConfig
    (mkAgentsConfig
       (mkAgentDefaults "~/.nanobot/workspace" "openrouter/anthropic/claude-3-5-sonnet"
                        8192 0x1.6666666666666p-1%float 20 50))
    (mkProvidersConfig (mkProviderConfig "" None) (mkProviderConfig "" None))
    (mkToolsConfig (mkWebToolsConfig (mkWebSearchConfig "" 5)) (mkExecToolConfig 60) false).

Definition is_ollama (provider : option string) : bool :=
  match provider with
  | Some p => String.eqb p "ollama"
  | None => false
  end.

Definition get_api_key (self : Config) (provider : option string) : string :=
  if is_ollama provider then api_key (ollama (providers self))
  else api_key (openrouter (providers self)).

Definition get_api_base (self : Config) (provider : option string) : string :=
  if is_ollama provider then
    let p := ollama (providers self) in
    match api_base p with
    | Some b => if Py.truthy_str (api_base p) then b else "http://localhost:11434"
    | None => "http://localhost:11434"
    end
  else
    let p := openrouter (providers self) in
    match api_base p with
    | Some b => if Py.truthy_str (api_base p) then b else "https://openrouter.ai/api/v1"
    | None => "https://openrouter.ai/api/v1"
    end.

(** [config.providers.openrouter.api_key = k], as the tests assign it. *)
Definition set_openrouter_api_key (k : string) (c : Config) : Config :=
  mkConfig (agents c)
           (mkProvidersConfig (mkProviderConfig k (api_base (openrouter (providers c))))
                              (ollama (providers c)))
           (tools c).

(** [config.providers.openrouter.api_base = b] *)
Definition set_openrouter_api_base (b : option string) (c : Config) : Config :=
  mkConfig (agents c)
           (mkProvidersConfig (mkProviderConfig (api_key (openrouter (providers c))) b)
                              (ollama (providers c)))
           (tools c).

End Schema.

(** ** nanobot/cli/commands.py *)

Module Commands.
Import Py.

(** [typer.Exit(code)], a [RuntimeError] that carries the exit code outside
    its message: [str(e)] is empty. *)
Definition Exit (code : Z) : exn := Exn (Exception_sub "Exit") "".

Definition option_json (s : option string) : json :=
  match s with
  | Some s => JStr s
  | None => JNull
  end.

(** A double-quoted word and a line feed inside a printed line. *)
Definition q (s : string) : string :=
  String (ascii_of_nat 34) (s +:+ String (ascii_of_nat 34) EmptyString).

Definition nl : string := String (ascii_of_nat 10) EmptyString.

(** [_make_provider]: the lines written to the console, and the provider
    returned or the exception raised. *)
Definition _make_provider (rt : LiteLLM.runtime) (config : Schema.Config)
    (model : option string)
  : list string * outcome (LiteLLM.LiteLLMProvider * LiteLLM.runtime) :=
  let model := str_or model (Schema.model (Schema.defaults (Schema.agents config))) in
  let model_only :=
    if Str.contains "/" model then List.last (Str.split "/" model) EmptyString
    else model in
  let spec := Registry.find_by_model model_only in
  let provider_name := option_map Registry.name spec in
  let '(api_key, api_base) :=
    if Schema.is_ollama provider_name then
      (str_or (Some (Schema.get_api_key config (Some "ollama"))) "",
       Schema.get_api_base config (Some "ollama"))
    else
      (Schema.get_api_key config None, Schema.get_api_base config None) in
  if negb (truthy_str (Some api_key)) && negb (Schema.is_ollama provider_name) then
    (["[red]Error: No API key configured.[/red]";
      "Set one in ~/.nanobot/config.json:";
      "  {" +:+ q "providers" +:+ ": {" +:+ q "openrouter" +:+ ": {" +:+ q "apiKey"
        +:+ ": " +:+ q "sk-or-v1-xxx" +:+ "}}}";
      nl +:+ "Or use Ollama for local models:";
      "  {" +:+ q "agents" +:+ ": {" +:+ q "defaults" +:+ ": {" +:+ q "model"
        +:+ ": " +:+ q "ollama/llama3.2" +:+ "}}}"],
     Raises (Exit 1))
  else
    ([],
     LiteLLM.LiteLLMProvider_new rt
       (<["api_key" := JStr api_key]>
          (<["api_base" := JStr api_base]>
             (<["default_model" := JStr model]>
                (<["provider_name" := option_json provider_name]> ∅))))).

(** [EXIT_COMMANDS], a set. *)
Definition EXIT_COMMANDS : list string := ["exit"; "quit"; "/exit"; "/quit"; ":q"].

Definition _is_exit_command (command : string) : bool :=
  mem (Str.lower command) EXIT_COMMANDS.

(** What [console.print] is given: a string with markup, or a rendered
    [Markdown] or [Text] body. *)
Inductive renderable : Type :=
| Markup (s : string)
| Markdown (s : string)
| Text (s : string).

Section Console.

(** [__logo__], of the package's [__init__]. *)
Variable logo : string.

(** [_print_agent_response]: the four things it prints. *)
Definition _print_agent_response (response : option string) (render_markdown : bool)
  : list renderable :=
  let content := str_or response "" in
  let body := if render_markdown then Markdown content else Text content in
  [Markup ""; Markup ("[cyan]" +:+ logo +:+ " nanobot[/cyan]"); body; Markup ""].

Definition mark (ok : bool) : string :=
  if ok then "[green]✓[/green]" else "[red]✗[/red]".

(** [status]: the lines it prints, given the configuration loaded, the
    two paths as they print, and whether each exists. *)
Definition status (config_path : string) (config_exists : bool)
    (workspace : string) (workspace_exists : bool) (config : Schema.Config)
  : list string :=
  ([logo +:+ " nanobot Status" +:+ nl;
    "Config: " +:+ config_path +:+ " " +:+ mark config_exists;
    "Workspace: " +:+ workspace +:+ " " +:+ mark workspace_exists]
   ++
   if config_exists then
     let openrouter_key := Schema.get_api_key config None in
     let has_openrouter_key := truthy_str (Some openrouter_key) in
     let ollama_key := Schema.get_api_key config (Some "ollama") in
     let ollama_base := Schema.get_api_base config (Some "ollama") in
     let ollama_configured :=
       truthy_str (Some ollama_base) || truthy_str (Some ollama_key) in
     ["Model: " +:+ Schema.model (Schema.defaults (Schema.agents config));
      "OpenRouter API Key: " +:+
        (if has_openrouter_key then "[green]✓[/green]" else "[dim]not set[/dim]");
      "Ollama: " +:+
        (if ollama_configured then "[green]✓[/green] " +:+ ollama_base
         else "[dim]http://localhost:11434 (default)[/dim]")]
   else [])%list.

(** What the prompt yields when the loop of [run_interactive] reads it: a
    line, or [KeyboardInterrupt], which [_read_interactive_input_async]
    also raises at the end of the input. *)
Inductive prompt_event : Type :=
| Line (user_input : string)
| Interrupted.

(** How the loop has ended, or that it waits at the prompt for input that
    has not come yet. *)
Inductive interactive_end : Type :=
| Goodbye
| Propagated (e : exn)
| AtPrompt.


(** The agent behind the loop: [agent_loop.process_direct], with the state
    it keeps from turn to turn. *)
Variable agent_state : Type.
Variable process_direct :
  agent_state -> string -> string -> outcome (option string) * agent_state.

Definition goodbye : renderable := Markup (nl +:+ "Goodbye!").

(** The [except] clauses of the loop: [KeyboardInterrupt] and [EOFError]. *)
Definition ends_chat (e : exn) : bool :=
  match exn_class_of e with
  | KeyboardInterrupt => true
  | Exception_sub n => String.eqb n "EOFError"
  | _ => false
  end.

(** [run_interactive], on the events the prompt yields: what is printed,
    the agent's state, and how the loop ended.  Flushing the terminal's
    input and restoring the terminal print nothing and are left out. *)
Fixpoint run_interactive (session_id : string) (markdown : bool)
    (events : list prompt_event) (st : agent_state) (printed : list renderable)
  : list renderable * agent_state * interactive_end :=
  match events with
  | [] => (printed, st, AtPrompt)
  | Interrupted :: _ => (printed ++ [goodbye], st, Goodbye)%list
  | Line user_input :: rest =>
      let command := Str.strip user_input in
      if negb (truthy_str (Some command)) then
        run_interactive session_id markdown rest st printed
      else if _is_exit_command command then
        (printed ++ [goodbye], st, Goodbye)%list
      else
        match process_direct st user_input session_id with
        | (Returns response, st') =>
            run_interactive session_id markdown rest st'
              (printed ++ _print_agent_response response markdown)%list
        | (Raises e, st') =>
            if ends_chat e then (printed ++ [goodbye], st', Goodbye)%list
            else (printed, st', Propagated e)
        end
  end.

End Console.

(** An agent for the examples: it answers every message with the same
    text and counts its turns. *)
Definition echo_agent (turns : nat) (user_input session_id : string)
  : outcome (option string) * nat :=
  (Returns (Some ("You said: " +:+ user_input)), S turns).

End Commands.

(** ** nanobot/agent/loop.py *)

Module AgentLoop.
Import Py Base.

(** Modelled from the spec: the roles of a Message in
    nanobot/agent/loop.py; user, assistant and tool, and the system role of
    a leading instruction message. *)
Inductive role : Type := RoleUser | RoleAssistant | RoleTool | RoleSystem.

(** Modelled from the spec: the ToolResult of nanobot/agent/loop.py,
    {call id, content, is_error flag}. *)
Record ToolResult : Type := mkToolResult {
  call_id : string;
  result_content : string;
  is_error : bool
}.

(** Modelled from the spec: the Message of nanobot/agent/loop.py.  It holds
    textual content, for an assistant message requesting tools the ordered
    requests, and for a tool-role message the result it carries, with the
    call id of the request it answers. *)
Record Message : Type := mkMessage {
  msg_role : role;
  msg_content : option string;
  msg_tool_calls : list ToolCallRequest;
  msg_tool_result : option ToolResult
}.

(** Modelled from the spec: the Tool capability contract of
    nanobot/agent/tools/base.py, with name, description, parameters and an
    execution entry point that returns text or raises. *)
Record Tool : Type := mkTool {
  tool_name : string;
  tool_description : string;
  tool_parameters : json;
  tool_execute : json -> outcome string
}.

(** Modelled from the spec: the two ways a turn of the Agent Loop in
    nanobot/agent/loop.py ends. *)
Inductive terminal : Type := DONE | LIMIT_REACHED.

(** Modelled from the spec: the configuration the constructor of AgentLoop
    in nanobot/agent/loop.py receives.  The iteration cap and the memory
    window are counts. *)
Record settings : Type := mkSettings {
  model : string;
  max_tokens : Z;
  temperature : float;
  max_iterations : nat;
  memory_window : nat
}.

(** Modelled from the spec: the test for a system message, the only kind
    that is pinned when it leads the history (nanobot/agent/loop.py). *)
Definition is_system (m : Message) : bool :=
  match msg_role m with RoleSystem => true | _ => false end.

(** Modelled from the spec: the pinned part of a history in
    nanobot/agent/loop.py, its leading system message if there is one. *)
Definition pinned (h : list Message) : list Message :=
  match h with
  | m :: _ => if is_system m then [m] else []
  | [] => []
  end.

(** Modelled from the spec: the part of a history in nanobot/agent/loop.py
    that may be evicted, everything after the pinned message. *)
Definition evictable (h : list Message) : list Message :=
  match h with
  | m :: rest => if is_system m then rest else h
  | [] => []
  end.

(** Modelled from the spec: the loop of the Memory Window trim in
    nanobot/agent/loop.py.  [kept] messages are pinned and [e] are the
    others, oldest first; the oldest of [e] is evicted until the length of
    the whole history is at most N, or nothing is left to evict. *)
Fixpoint evict_until (kept N : nat) (e : list Message) : list Message :=
  match e with
  | [] => []
  | _ :: e' => if (kept + length e <=? N)%nat then e else evict_until kept N e'
  end.

(** Modelled from the spec: step 4 of process_direct in
    nanobot/agent/loop.py, the Memory Window trim. *)
Definition trim (N : nat) (h : list Message) : list Message :=
  (pinned h ++ evict_until (length (pinned h)) N (evictable h))%list.

(** Modelled from the spec: the messages process_direct of
    nanobot/agent/loop.py appends to a history. *)
Definition user_message (text : string) : Message :=
  mkMessage RoleUser (Some text) [] None.

(** Modelled from the spec: the assistant message of
    nanobot/agent/loop.py, with the response's content and its requests. *)
Definition assistant_message (r : LLMResponse) : Message :=
  mkMessage RoleAssistant (content r) (tool_calls r) None.

(** Modelled from the spec: the tool-role message of
    nanobot/agent/loop.py, carrying a ToolResult. *)
Definition tool_message (r : ToolResult) : Message :=
  mkMessage RoleTool (Some (result_content r)) [] (Some r).

Section Loop.

(** The collaborators of the loop: the Provider, with a state of its own
    that each call may change, the registered Tools, and the texts the spec
    leaves open (the progress line of a call, the error texts, the text
    reporting the iteration limit). *)
Variable provider_state : Type.
Variable chat :
  provider_state -> list Message -> list json -> string -> Z -> float ->
  LLMResponse * provider_state.
Variable registry : gmap string Tool.
Variable describe : ToolCallRequest -> string.
Variable unknown_tool_text : string -> string.
Variable tool_fault_text : exn -> string.
Variable limit_text : string.
Variable cfg : settings.

(** Modelled from the spec: the schema list of nanobot/agent/loop.py; each
    registered tool contributes {name, description, parameters}. *)
Definition schemas : list json :=
  map (fun kt : string * Tool =>
         JDict [("name", JStr (tool_name kt.2));
                ("description", JStr (tool_description kt.2));
                ("parameters", tool_parameters kt.2)])
      (map_to_list registry).

(** Modelled from the spec: step 2a of process_direct in
    nanobot/agent/loop.py, seen from the Provider; its state after it has
    answered the request with history [h]. *)
Definition answered (ps : provider_state) (h : list Message) : provider_state :=
  (chat ps h schemas (model cfg) (max_tokens cfg) (temperature cfg)).2.

(** Modelled from the spec: what a turn of nanobot/agent/loop.py has done
    so far: the history, the provider's state, the histories sent to the
    Provider (one per call) and the lines given to the progress sink. *)
Record turn : Type := mkTurn {
  history : list Message;
  pstate : provider_state;
  provider_calls : list (list Message);
  progress : list string
}.

(** Modelled from the spec: step 2d of process_direct in
    nanobot/agent/loop.py for one request.  An unknown tool gives an error
    result; otherwise the progress sink is told first, the tool runs, and
    an exception becomes an error result. *)
Definition dispatch (tc : ToolCallRequest) (st : turn) : turn :=
  let '(result, lines) :=
    match registry !! tc_name tc with
    | None => (mkToolResult (tc_id tc) (unknown_tool_text (tc_name tc)) true, [])
    | Some t =>
        (match tool_execute t (tc_arguments tc) with
         | Returns text => mkToolResult (tc_id tc) text false
         | Raises e => mkToolResult (tc_id tc) (tool_fault_text e) true
         end, [describe tc])
    end in
  mkTurn (history st ++ [tool_message result]) (pstate st) (provider_calls st)
         (progress st ++ lines).

(** Modelled from the spec: step 2d of process_direct in
    nanobot/agent/loop.py, the requests in the order issued. *)
Definition dispatch_all (tcs : list ToolCallRequest) (st : turn) : turn :=
  fold_left (fun st tc => dispatch tc st) tcs st.

(** Modelled from the spec: steps 2 and 3 of process_direct in
    nanobot/agent/loop.py.  [k] is the number of iterations left; each one
    makes one Provider call. *)
Fixpoint iterate (k : nat) (st : turn) : turn * option string * terminal :=
  match k with
  | O => (st, Some limit_text, LIMIT_REACHED)
  | S k' =>
      let '(resp, ps) :=
        chat (pstate st) (history st) schemas (model cfg) (max_tokens cfg)
             (temperature cfg) in
      let st := mkTurn (history st) ps (provider_calls st ++ [history st]) (progress st) in
      let answered :=
        mkTurn (history st ++ [assistant_message resp]) (pstate st)
               (provider_calls st) (progress st) in
      if String.eqb (finish_reason resp) "error" then
        (mkTurn (history st ++ [mkMessage RoleAssistant (content resp) [] None])
                (pstate st) (provider_calls st) (progress st),
         content resp, DONE)
      else
        match tool_calls resp with
        | [] => (answered, content resp, DONE)
        | tcs => iterate k' (dispatch_all tcs answered)
        end
  end.

(** Modelled from the spec: the state the AgentLoop of
    nanobot/agent/loop.py keeps between turns. *)
Record loop_state : Type := mkLoopState {
  sessions : gmap string (list Message);
  provider : provider_state
}.

(** Modelled from the spec: what one call of process_direct in
    nanobot/agent/loop.py yields. *)
Record turn_result : Type := mkTurnResult {
  final_text : option string;
  ended : terminal;
  untrimmed : list Message;
  calls_made : list (list Message);
  progress_lines : list string;
  after : loop_state
}.

(** Modelled from the spec: process_direct of nanobot/agent/loop.py, steps
    1 to 5. *)
Definition process_direct (ls : loop_state) (user_text session_id : string)
  : turn_result :=
  let h0 := (default [] (sessions ls !! session_id) ++ [user_message user_text])%list in
  let '(st, answer, how) := iterate (max_iterations cfg) (mkTurn h0 (provider ls) [] []) in
  let stored := trim (memory_window cfg) (history st) in
  mkTurnResult answer how (history st) (provider_calls st) (progress st)
               (mkLoopState (<[session_id := stored]> (sessions ls)) (pstate st)).

End Loop.

Arguments mkTurn {provider_state} _ _ _ _.
Arguments history {provider_state} _.
Arguments pstate {provider_state} _.
Arguments provider_calls {provider_state} _.
Arguments progress {provider_state} _.
Arguments answered {provider_state} _ _ _ _ _.
Arguments dispatch {provider_state} _ _ _ _ _ _.
Arguments dispatch_all {provider_state} _ _ _ _ _ _.
Arguments iterate {provider_state} _ _ _ _ _ _ _ _ _.
Arguments mkLoopState {provider_state} _ _.
Arguments sessions {provider_state} _.
Arguments provider {provider_state} _.
Arguments mkTurnResult {provider_state} _ _ _ _ _ _.
Arguments final_text {provider_state} _.
Arguments ended {provider_state} _.
Arguments untrimmed {provider_state} _.
Arguments calls_made {provider_state} _.
Arguments progress_lines {provider_state} _.
Arguments after {provider_state} _.
Arguments process_direct {provider_state} _ _ _ _ _ _ _ _ _ _.

(** Calling a tool's [execute] with the request's arguments splatted into
    keywords; Python refuses arguments that are not a mapping. *)
Definition splat (arguments : json) (execute : gmap string json -> outcome string)
  : outcome string :=
  match arguments with
  | JDict items => execute (list_to_map items)
  | _ => Raises (TypeError "argument after ** must be a mapping")
  end.

(** The registry of the scenarios: the message tool. *)
Definition message_tool : Tool :=
  mkTool MessageTool.name MessageTool.description MessageTool.parameters
         (fun arguments => splat arguments MessageTool.execute).

Definition example_registry : gmap string Tool := {[ "message" := message_tool ]}.

(** Scenario A: the Provider answers "4" at once. *)
Definition answers_4 (ps : unit) (h : list Message) (tools : list json) (model : string)
    (max_tokens : Z) (temperature : float) : LLMResponse * unit :=
  (mkLLMResponse (Some "4") [] "stop" ∅, tt).

(** Scenario C: the Provider asks for the message tool on every call. *)
Definition always_calls_message (ps : nat) (h : list Message) (tools : list json)
    (model : string) (max_tokens : Z) (temperature : float) : LLMResponse * nat :=
  (mkLLMResponse None
     [mkToolCallRequest "call" "message" (JDict [("content", JStr "hi")])]
     "tool_calls" ∅, S ps).

Definition example_settings (K N : nat) : settings :=
  mkSettings "openrouter/anthropic/claude-3-5-sonnet" 8192 0x1.6666666666666p-1%float K N.

Definition example_describe (tc : ToolCallRequest) : string := "Running " +:+ tc_name tc.
Definition example_unknown (n : string) : string := "Error: unknown tool " +:+ n.
Definition example_fault (e : exn) : string := "Error: " +:+ exn_str e.
Definition example_limit : string := "Iteration limit reached".

(** A session that starts with a system message. *)
Definition system_prompt : Message :=
  mkMessage RoleSystem (Some "You are nanobot.") [] None.

End AgentLoop.

(* ===================================================================== *)
(** * Part II.  Properties                                                *)
(* ===================================================================== *)

(** ** The message bus *)

Section BusProperties.
Import Events Queue.

Lemma run_snoc calls c st : run (calls ++ [c]) st = step (run calls st) c.
Proof. unfold run. by rewrite fold_left_app. Qed.

Lemma step_inbound_view st1 st2 c :
  inbound_view st1 = inbound_view st2 ->
  inbound_view (step st1 c) =
  if on_inbound c then inbound_view (step st2 c) else inbound_view st2.
Proof.
  destruct st1 as [[i1 o1] [di1 do1]], st2 as [[i2 o2] [di2 do2]].
  unfold inbound_view; cbn. intros [= -> ->].
  destruct c; cbn; try reflexivity.
  - unfold consume_inbound; cbn. by destruct i2.
  - unfold consume_outbound; cbn. by destruct o1.
Qed.

Lemma step_outbound_view st1 st2 c :
  outbound_view st1 = outbound_view st2 ->
  outbound_view (step st1 c) =
  if on_outbound c then outbound_view (step st2 c) else outbound_view st2.
Proof.
  destruct st1 as [[i1 o1] [di1 do1]], st2 as [[i2 o2] [di2 do2]].
  unfold outbound_view; cbn. intros [= -> ->].
  destruct c; cbn; try reflexivity.
  - unfold consume_inbound; cbn. by destruct i1.
  - unfold consume_outbound; cbn. by destruct o2.
Qed.

Lemma run_inbound_only calls :
  inbound_view (run calls fresh) = inbound_view (run (List.filter on_inbound calls) fresh).
Proof.
  induction calls as [|c calls IH] using rev_ind; [reflexivity|].
  rewrite List.filter_app, run_snoc. cbn [List.filter].
  rewrite (step_inbound_view _ _ c IH).
  destruct (on_inbound c) eqn:Hc.
  - by rewrite run_snoc.
  - by rewrite app_nil_r.
Qed.

Lemma run_outbound_only calls :
  outbound_view (run calls fresh) = outbound_view (run (List.filter on_outbound calls) fresh).
Proof.
  induction calls as [|c calls IH] using rev_ind; [reflexivity|].
  rewrite List.filter_app, run_snoc. cbn [List.filter].
  rewrite (step_outbound_view _ _ c IH).
  destruct (on_outbound c) eqn:Hc.
  - by rewrite run_snoc.
  - by rewrite app_nil_r.
Qed.

Lemma published_inbound_snoc calls c :
  published_inbound (calls ++ [c]) =
  (published_inbound calls ++ match c with PublishInbound m => [m] | _ => [] end)%list.
Proof. unfold published_inbound. rewrite flat_map_app. cbn. by rewrite app_nil_r. Qed.

Lemma published_outbound_snoc calls c :
  published_outbound (calls ++ [c]) =
  (published_outbound calls ++ match c with PublishOutbound m => [m] | _ => [] end)%list.
Proof. unfold published_outbound. rewrite flat_map_app. cbn. by rewrite app_nil_r. Qed.

(** Delivered messages followed by pending ones are the published ones, on
    each queue. *)
Lemma run_fifo calls :
  (from_inbound (run calls fresh).2 ++ inbound (run calls fresh).1 = published_inbound calls
   /\ from_outbound (run calls fresh).2 ++ outbound (run calls fresh).1 = published_outbound calls)%list.
Proof.
  induction calls as [|c calls [IHi IHo]] using rev_ind; [done|].
  rewrite run_snoc, published_inbound_snoc, published_outbound_snoc.
  destruct (run calls fresh) as [[i o] [di do]]; cbn in IHi, IHo.
  destruct c; cbn.
  - unfold put. rewrite app_assoc, IHi, IHo, app_nil_r. done.
  - unfold consume_inbound; cbn. destruct i as [|x i]; cbn.
    + by rewrite IHi, IHo, !app_nil_r.
    + rewrite <- app_assoc. cbn. by rewrite IHi, IHo, !app_nil_r.
  - unfold put. rewrite app_assoc, IHi, IHo, app_nil_r. done.
  - unfold consume_outbound; cbn. destruct o as [|x o]; cbn.
    + by rewrite IHi, IHo, !app_nil_r.
    + rewrite <- app_assoc. cbn. by rewrite IHi, IHo, !app_nil_r.
Qed.

Lemma drain_inbound pending : forall o d_in d_out,
  run (repeat ConsumeInbound (length pending))
      (mkMessageBus pending o, mkDelivered d_in d_out)
  = (mkMessageBus [] o, mkDelivered (d_in ++ pending) d_out).
Proof.
  induction pending as [|x pending IH]; intros o d_in d_out; cbn.
  - by rewrite app_nil_r.
  - unfold run in IH. rewrite IH. by rewrite <- app_assoc.
Qed.

Lemma drain_outbound pending : forall i d_in d_out,
  run (repeat ConsumeOutbound (length pending))
      (mkMessageBus i pending, mkDelivered d_in d_out)
  = (mkMessageBus i [], mkDelivered d_in (d_out ++ pending)).
Proof.
  induction pending as [|x pending IH]; intros i d_in d_out; cbn.
  - by rewrite app_nil_r.
  - unfold run in IH. rewrite IH. by rewrite <- app_assoc.
Qed.

(** What the next consume returns is the next published message. *)
Lemma next_consumed {A} (d pending published : list A) :
  (d ++ pending)%list = published ->
  head pending = published !! length d.
Proof.
  intros <-. destruct pending as [|x pending]; cbn.
  - rewrite app_nil_r. symmetry. by apply lookup_ge_None.
  - symmetry. by apply list_lookup_middle.
Qed.

(** C5.  The bus holds two independent unbounded FIFO queues.  After any
    sequence of calls on a new bus, and for each queue separately: the
    messages delivered by consume, followed by those still pending, are
    exactly the messages published, in publication order; the next consume
    returns the oldest message published and not yet consumed, the k-th
    consume that completes returning the k-th message published, and waits
    only when there is none; consuming as often as the size accessor says
    delivers every published message in publication order and empties the
    queue; publishing always completes and adds one pending message; the
    size accessor, a plain read of the queue that never waits, is the number
    of messages published and not yet consumed; and what a queue holds and
    has delivered is the same as if the calls on the other queue had never
    been made, so the two queues impose no order on each other. *)
Theorem bus_two_independent_fifo_queues (calls : list call) :
  let st := run calls fresh in
  ((from_inbound st.2 ++ inbound st.1)%list = published_inbound calls
   /\ (from_outbound st.2 ++ outbound st.1)%list = published_outbound calls)
  /\ (fst <$> consume_inbound st.1 = published_inbound calls !! length (from_inbound st.2)
      /\ fst <$> consume_outbound st.1
         = published_outbound calls !! length (from_outbound st.2))
  /\ (let drained := run (repeat ConsumeInbound (inbound_size st.1)) st in
      from_inbound drained.2 = published_inbound calls
      /\ inbound drained.1 = []
      /\ outbound_view drained = outbound_view st)
  /\ (let drained := run (repeat ConsumeOutbound (outbound_size st.1)) st in
      from_outbound drained.2 = published_outbound calls
      /\ outbound drained.1 = []
      /\ inbound_view drained = inbound_view st)
  /\ (inbound_size st.1 = (length (published_inbound calls) - length (from_inbound st.2))%nat
      /\ outbound_size st.1 = (length (published_outbound calls) - length (from_outbound st.2))%nat)
  /\ (forall m m', inbound_size (publish_inbound st.1 m) = S (inbound_size st.1)
                   /\ outbound_size (publish_outbound st.1 m') = S (outbound_size st.1))
  /\ (inbound_view st = inbound_view (run (List.filter on_inbound calls) fresh)
      /\ outbound_view st = outbound_view (run (List.filter on_outbound calls) fresh)).
Proof.
  intros st. pose proof (run_fifo calls) as [Hi Ho]. fold st in Hi, Ho.
  split; [by split|]. split; [|split; [|split; [|split; [|split]]]].
  - split.
    + rewrite <- (next_consumed _ _ _ Hi). unfold consume_inbound, get.
      by destruct (inbound st.1).
    + rewrite <- (next_consumed _ _ _ Ho). unfold consume_outbound, get.
      by destruct (outbound st.1).
  - destruct st as [[i o] [d_in d_out]]. unfold inbound_size, qsize. cbn in *.
    by rewrite drain_inbound.
  - destruct st as [[i o] [d_in d_out]]. unfold outbound_size, qsize. cbn in *.
    by rewrite drain_outbound.
  - unfold inbound_size, outbound_size, qsize.
    rewrite <- Hi, <- Ho, !length_app. lia.
  - intros m m'. unfold inbound_size, outbound_size, qsize, put; cbn.
    unfold put. rewrite !length_app. cbn. lia.
  - split; [apply run_inbound_only | apply run_outbound_only].
Qed.

End BusProperties.

(** ** The provider: what [chat] sends *)

Section ChatRequest.
Import Py Base Backend LiteLLM.

Variable acompletion : gmap string json -> outcome ModelResponse.
Variable json_repair_loads : string -> outcome json.

(** [chat] consults the backend once, with [chat_kwargs]: replacing the
    backend by one that answers every request as it answers that one
    changes nothing. *)
Lemma chat_sends_chat_kwargs self messages tools model max_tokens temperature :
  chat acompletion json_repair_loads self messages tools model max_tokens temperature =
  chat (fun _ => acompletion (chat_kwargs self messages tools model max_tokens temperature))
       json_repair_loads self messages tools model max_tokens temperature.
Proof. reflexivity. Qed.

Lemma chat_kwargs_max_tokens self messages tools model max_tokens temperature :
  chat_kwargs self messages tools model max_tokens temperature !! "max_tokens"
  = Some (JInt (Z.max 1 max_tokens)).
Proof.
  unfold chat_kwargs.
  destruct tools as [[|t ts]|], (api_key self) as [k|];
    try destruct (truthy_str (Some k)); by simplify_map_eq.
Qed.

(** [chat] calls the backend with [chat_kwargs], and what the backend
    answers to that request decides the result: a reply is parsed, an
    exception is handled. *)
Lemma chat_calls_backend self messages tools model max_tokens temperature :
  chat acompletion json_repair_loads self messages tools model max_tokens temperature
  = try_except_Exception
      (bind (acompletion (chat_kwargs self messages tools model max_tokens temperature))
            (_parse_response json_repair_loads))
      (fun e => Returns (error_response e)).
Proof. reflexivity. Qed.

(** A backend that fails with a text made from the request it receives
    shows what [chat] sends: the text that comes back is made from
    [chat_kwargs]. *)
Lemma chat_request_observed (observe : gmap string json -> string)
    self messages tools model max_tokens temperature :
  chat (fun kw => Raises (Exn (Exception_sub "Probe") (observe kw)))
       json_repair_loads self messages tools model max_tokens temperature
  = Returns (error_response
               (Exn (Exception_sub "Probe")
                    (observe (chat_kwargs self messages tools model max_tokens temperature)))).
Proof. reflexivity. Qed.

(** C6.  On every call of chat the backend is called, with a request whose
    max_tokens entry is the input clamped from below at 1: it is at least
    1, it is 1 for an input below 1, and it is the input itself otherwise.
    The backend's answer to that very request decides what chat returns,
    and a backend that reports the max_tokens it receives reports the
    clamped value. *)
Theorem chat_clamps_max_tokens self messages tools model max_tokens temperature :
  let kwargs := chat_kwargs self messages tools model max_tokens temperature in
  (chat acompletion json_repair_loads self messages tools model max_tokens temperature
   = chat (fun _ => acompletion kwargs) json_repair_loads self messages tools model
          max_tokens temperature
   /\ chat acompletion json_repair_loads self messages tools model max_tokens temperature
      = try_except_Exception
          (bind (acompletion kwargs) (_parse_response json_repair_loads))
          (fun e => Returns (error_response e)))
  /\ (forall observe : option json -> string,
        chat (fun kw => Raises (Exn (Exception_sub "Probe") (observe (kw !! "max_tokens"))))
             json_repair_loads self messages tools model max_tokens temperature
        = Returns (error_response
                     (Exn (Exception_sub "Probe")
                          (observe (Some (JInt (Z.max 1 max_tokens)))))))
  /\ exists sent : Z,
       kwargs !! "max_tokens" = Some (JInt sent)
       /\ 1 <= sent
       /\ sent = (if max_tokens <? 1 then 1 else max_tokens).
Proof.
  split; [split; [apply chat_sends_chat_kwargs | apply chat_calls_backend]|].
  split.
  - intros observe.
    rewrite (chat_request_observed (fun kw => observe (kw !! "max_tokens"))).
    by rewrite chat_kwargs_max_tokens.
  - exists (Z.max 1 max_tokens). split; [apply chat_kwargs_max_tokens|].
    split; [lia|]. destruct (Z.ltb_spec max_tokens 1); lia.
Qed.

Lemma chat_kwargs_tools self messages tools model max_tokens temperature :
  let kwargs := chat_kwargs self messages tools model max_tokens temperature in
  kwargs !! "tools"
  = match tools with Some (t :: ts) => Some (JList (t :: ts)) | _ => None end
  /\ kwargs !! "tool_choice"
     = match tools with Some (_ :: _) => Some (JStr "auto") | _ => None end.
Proof.
  unfold chat_kwargs.
  destruct tools as [[|t ts]|], (api_key self) as [k|];
    try destruct (truthy_str (Some k)); split; by simplify_map_eq.
Qed.

(** C7.  On every call of chat the backend is called, with a request that
    carries the tool schema list exactly when the list is given and not
    empty, and then carries it unchanged together with the tool_choice
    "auto"; for an empty or absent list the request has neither a tools nor
    a tool_choice entry.  The backend's answer to that very request decides
    what chat returns, and a backend that reports the tools and tool_choice
    it receives reports just these. *)
Theorem chat_passes_tools_when_nonempty self messages tools model max_tokens temperature :
  let kwargs := chat_kwargs self messages tools model max_tokens temperature in
  (chat acompletion json_repair_loads self messages tools model max_tokens temperature
   = chat (fun _ => acompletion kwargs) json_repair_loads self messages tools model
          max_tokens temperature
   /\ chat acompletion json_repair_loads self messages tools model max_tokens temperature
      = try_except_Exception
          (bind (acompletion kwargs) (_parse_response json_repair_loads))
          (fun e => Returns (error_response e)))
  /\ (forall observe : option json -> option json -> string,
        chat (fun kw => Raises (Exn (Exception_sub "Probe")
                                    (observe (kw !! "tools") (kw !! "tool_choice"))))
             json_repair_loads self messages tools model max_tokens temperature
        = Returns (error_response
                     (Exn (Exception_sub "Probe")
                          (match tools with
                           | Some (t :: ts) =>
                               observe (Some (JList (t :: ts))) (Some (JStr "auto"))
                           | Some [] | None => observe None None
                           end))))
  /\ match tools with
     | Some (t :: ts) =>
         kwargs !! "tools" = Some (JList (t :: ts))
         /\ kwargs !! "tool_choice" = Some (JStr "auto")
     | Some [] | None =>
         kwargs !! "tools" = None /\ kwargs !! "tool_choice" = None
     end.
Proof.
  pose proof (chat_kwargs_tools self messages tools model max_tokens temperature)
    as [Htools Hchoice].
  split; [split; [apply chat_sends_chat_kwargs | apply chat_calls_backend]|].
  split.
  - intros observe.
    rewrite (chat_request_observed (fun kw => observe (kw !! "tools") (kw !! "tool_choice"))).
    rewrite Htools, Hchoice. by destruct tools as [[|t ts]|].
  - rewrite Htools, Hchoice. by destruct tools as [[|t ts]|].
Qed.

End ChatRequest.

(** ** The provider: exceptions *)

Section ChatErrors.
Import Py Base Backend LiteLLM.

Variable acompletion : gmap string json -> outcome ModelResponse.
Variable json_repair_loads : string -> outcome json.

(** What the [try] block of [chat] evaluates to. *)
Lemma chat_unfold self messages tools model max_tokens temperature :
  chat acompletion json_repair_loads self messages tools model max_tokens temperature =
  try_except_Exception
    (bind (acompletion (chat_kwargs self messages tools model max_tokens temperature))
          (_parse_response json_repair_loads))
    (fun e => Returns (error_response e)).
Proof. reflexivity. Qed.

(** An exception [chat] lets through does not derive from [Exception]. *)
Lemma chat_propagates_only_non_Exception self messages tools model max_tokens temperature e :
  chat acompletion json_repair_loads self messages tools model max_tokens temperature = Raises e ->
  isinstance_Exception e = false.
Proof.
  rewrite chat_unfold. unfold try_except_Exception.
  destruct (bind _ _) as [resp|e']; [discriminate|].
  destruct (isinstance_Exception e') eqn:He'; [discriminate|].
  by intros [= <-].
Qed.

(** C1, as amended.  Whatever the inputs, an exception raised by the
    backend call or by parsing its response that is an instance of
    Exception is caught: chat returns the response whose content is
    "Error calling LLM: " followed by the text of the exception and whose
    finish_reason is "error".  The exceptions chat lets through to its
    caller are those that do not derive from Exception. *)
Theorem chat_catches_Exception self messages tools model max_tokens temperature :
  let kwargs := chat_kwargs self messages tools model max_tokens temperature in
  let result :=
    chat acompletion json_repair_loads self messages tools model max_tokens temperature in
  (forall e,
      (acompletion kwargs = Raises e
       \/ exists r, acompletion kwargs = Returns r
                    /\ _parse_response json_repair_loads r = Raises e) ->
      isinstance_Exception e = true ->
      result = Returns (error_response e)
      /\ content (error_response e) = Some ("Error calling LLM: " +:+ exn_str e)
      /\ finish_reason (error_response e) = "error")
  /\ (forall e, result = Raises e -> isinstance_Exception e = false).
Proof.
  cbn zeta. split.
  - intros e Hraised He. split; [|done].
    rewrite chat_unfold.
    destruct Hraised as [-> | (r & -> & Hparse)]; cbn; [|rewrite Hparse; cbn];
      by rewrite He.
  - apply chat_propagates_only_non_Exception.
Qed.

End ChatErrors.

(** C1, the claim as stated fails.  A backend call that is cancelled raises
    [asyncio.CancelledError], which does not derive from [Exception]:
    [chat] returns no response and the exception reaches the caller. *)
Lemma chat_propagates_CancelledError :
  LiteLLM.chat (fun _ => Py.Raises (Py.Exn Py.CancelledError ""))
               (fun _ => Py.Returns (Py.JStr ""))
               LiteLLM.example_provider LiteLLM.example_messages None None 4096
               0x1.6666666666666p-1%float
  = Py.Raises (Py.Exn Py.CancelledError "").
Proof. reflexivity. Qed.

(** C1, the amended claim at a concrete input: the backend answers with no
    choices, so indexing them raises [IndexError] while parsing. *)
Lemma chat_catches_Exception_witness :
  LiteLLM.chat (fun _ => Py.Returns (Backend.mkModelResponse [] Backend.Absent))
               (fun _ => Py.Returns (Py.JStr ""))
               LiteLLM.example_provider LiteLLM.example_messages None None 4096
               0x1.6666666666666p-1%float
  = Py.Returns (Base.mkLLMResponse (Some "Error calling LLM: list index out of range")
                                   [] "error" ∅).
Proof.
  refine (proj1 (proj1 (chat_catches_Exception
            (fun _ => Py.Returns (Backend.mkModelResponse [] Backend.Absent))
            (fun _ => Py.Returns (Py.JStr ""))
            LiteLLM.example_provider LiteLLM.example_messages None None 4096
            0x1.6666666666666p-1%float)
          (Py.IndexError "list index out of range") _ _)).
  - right. eexists. split; reflexivity.
  - reflexivity.
Defined.

(** ** The provider: parsing the reply *)

Section ParseResponse.
Import Py Base Backend LiteLLM.




(** C10, as amended.  On the success path, that is when the backend call
    and the parsing both return, the response chat returns has the finish
    reason "stop" if the backend's is None or empty, and the backend's own
    finish reason, unchanged, otherwise.  It is never empty, and it is
    "error" exactly when the backend reports "error" itself. *)
Theorem finish_reason_defaults_to_stop
    (acompletion : gmap string json -> outcome ModelResponse)
    (json_repair_loads : string -> outcome json)
    self messages tools model max_tokens temperature
    (r : ModelResponse) (resp : LLMResponse) :
  acompletion (chat_kwargs self messages tools model max_tokens temperature) = Returns r ->
  _parse_response json_repair_loads r = Returns resp ->
  chat acompletion json_repair_loads self messages tools model max_tokens temperature
  = Returns resp
  /\ exists choice,
       head (choices r) = Some choice
       /\ finish_reason resp =
          match choice_finish_reason choice with
          | None | Some EmptyString => "stop"
          | Some reason => reason
          end
       /\ finish_reason resp <> ""
       /\ (finish_reason resp = "error" <-> choice_finish_reason choice = Some "error").
Proof.
  intros Hcall Hparse. split.
  - rewrite (chat_unfold acompletion json_repair_loads), Hcall. cbn. by rewrite Hparse.
  - unfold _parse_response in Hparse.
    destruct (choices r) as [|choice rest]; [discriminate|].
    destruct (parse_tool_calls _ _) as [reqs|e]; [|discriminate].
    cbn in Hparse. injection Hparse as <-. cbn.
    exists choice. split; [done|].
    destruct (choice_finish_reason choice) as [[|c reason]|]; cbn;
      repeat split; try done; try congruence.
Qed.

End ParseResponse.



(** C10, the claim as stated fails.  The backend answers normally, with
    the finish reason "error" (OpenRouter reports a failed generation this
    way): nothing raises, and the response of [chat] has the finish reason
    "error" on the success path. *)
Lemma finish_reason_error_on_success_path :
  let r := Backend.mkModelResponse
             [Backend.mkChoice (Backend.mkMessage (Some "partial") Backend.Absent)
                               (Some "error")]
             Backend.Absent in
  LiteLLM._parse_response (fun _ => Py.Returns (Py.JStr "")) r
  = Py.Returns (Base.mkLLMResponse (Some "partial") [] "error" ∅)
  /\ LiteLLM.chat (fun _ => Py.Returns r) (fun _ => Py.Returns (Py.JStr ""))
                  LiteLLM.example_provider LiteLLM.example_messages None None 4096
                  0x1.6666666666666p-1%float
     = Py.Returns (Base.mkLLMResponse (Some "partial") [] "error" ∅).
Proof. split; reflexivity. Qed.

(** C10, the amended claim at a concrete input: the backend gives no finish
    reason. *)
Lemma finish_reason_defaults_to_stop_witness :
  let r := Backend.mkModelResponse
             [Backend.mkChoice (Backend.mkMessage (Some "4") Backend.Absent) None]
             Backend.Absent in
  LiteLLM.chat (fun _ => Py.Returns r) (fun _ => Py.Returns (Py.JStr ""))
               LiteLLM.example_provider LiteLLM.example_messages None None 4096
               0x1.6666666666666p-1%float
  = Py.Returns (Base.mkLLMResponse (Some "4") [] "stop" ∅).
Proof.
  intros r.
  exact (proj1 (finish_reason_defaults_to_stop
                  (fun _ => Py.Returns r) (fun _ => Py.Returns (Py.JStr ""))
                  LiteLLM.example_provider LiteLLM.example_messages None None 4096
                  0x1.6666666666666p-1%float r
                  (Base.mkLLMResponse (Some "4") [] "stop" ∅) eq_refl eq_refl)).
Defined.

(** ** Binding keyword arguments *)

Section Binding.
Import Py.

Lemma mem_In x l : mem x l = true <-> In x l.
Proof.
  unfold mem. rewrite existsb_exists. split.
  - intros (y & Hy & Heq). apply String.eqb_eq in Heq. by subst.
  - intros Hx. exists x. split; [done | apply String.eqb_refl].
Qed.

Lemma mem_false x l : mem x l = false <-> ~ In x l.
Proof. rewrite <- mem_In. by destruct (mem x l). Qed.

Lemma filter_eq_nil {A} (f : A -> bool) (l : list A) :
  List.filter f l = [] <-> forall x, In x l -> f x = false.
Proof.
  induction l as [|a l IH]; cbn; [done|].
  destruct (f a) eqn:Ha; split.
  - discriminate.
  - intros H. specialize (H a (or_introl eq_refl)). congruence.
  - intros Hnil x [<- | Hx]; [done | by apply IH].
  - intros H. apply IH. intros x Hx. apply H. by right.
Qed.

Lemma In_keys {V} (m : gmap string V) (k : string) :
  In k (map_to_list m).*1 <-> is_Some (m !! k).
Proof.
  rewrite <- list_elem_of_In, list_elem_of_fmap. split.
  - intros ([k' v] & -> & Hkv). apply elem_of_map_to_list in Hkv. by exists v.
  - intros [v Hv]. exists (k, v). split; [done | by apply elem_of_map_to_list].
Qed.

(** Binding raises nothing but [TypeError]. *)
Lemma bind_keywords_cases {V} sg (kwargs : gmap string V) :
  bind_keywords sg kwargs = Returns kwargs
  \/ exists e, bind_keywords sg kwargs = Raises e /\ is_TypeError e = true.
Proof.
  unfold bind_keywords.
  set (kw := (map_to_list kwargs).*1).
  destruct (duplicated sg kw), (unexpected sg kw), (missing sg kw);
    first [by left | right; eexists; split; reflexivity].
Qed.

(** Binding succeeds exactly when no keyword repeats a positional
    parameter, every keyword is accepted, and every required parameter has
    a value. *)
Lemma bind_keywords_returns {V} sg (kwargs : gmap string V) :
  bind_keywords sg kwargs = Returns kwargs <->
  (forall k, is_Some (kwargs !! k) -> ~ In k (sig_positional sg))
  /\ (sig_var_keyword sg = true
      \/ forall k, is_Some (kwargs !! k) ->
                   In k (sig_positional sg ++ sig_required sg ++ sig_optional sg)%list)
  /\ (forall p, In p (sig_required sg) -> is_Some (kwargs !! p)).
Proof.
  unfold bind_keywords.
  set (kw := (map_to_list kwargs).*1).
  assert (Hdup : duplicated sg kw = [] <->
                 forall k, is_Some (kwargs !! k) -> ~ In k (sig_positional sg)).
  { unfold duplicated. rewrite filter_eq_nil. split; intros H k Hk.
    - apply mem_false, H. by apply In_keys.
    - apply mem_false, H. by apply In_keys. }
  assert (Hunx : unexpected sg kw = [] <->
                 (sig_var_keyword sg = true
                  \/ forall k, is_Some (kwargs !! k) ->
                       In k (sig_positional sg ++ sig_required sg ++ sig_optional sg)%list)).
  { unfold unexpected. destruct (sig_var_keyword sg); [by split; auto|].
    rewrite filter_eq_nil. split.
    - intros H. right. intros k Hk. apply mem_In.
      specialize (H k (proj2 (In_keys kwargs k) Hk)). by apply negb_false_iff in H.
    - intros [?|H] k Hk; [done|]. apply negb_false_iff, mem_In, H. by apply In_keys. }
  assert (Hmis : missing sg kw = [] <->
                 forall p, In p (sig_required sg) -> is_Some (kwargs !! p)).
  { unfold missing. rewrite filter_eq_nil. split; intros H p Hp.
    - apply In_keys, mem_In. specialize (H p Hp). by apply negb_false_iff in H.
    - apply negb_false_iff, mem_In, In_keys, H, Hp. }
  destruct (duplicated sg kw) as [|k1 l1]; [|split; [discriminate|]].
  2:{ intros (H & _ & _). apply Hdup in H. discriminate. }
  destruct (unexpected sg kw) as [|k2 l2]; [|split; [discriminate|]].
  2:{ intros (_ & H & _). apply Hunx in H. discriminate. }
  destruct (missing sg kw) as [|p3 l3]; [|split; [discriminate|]].
  2:{ intros (_ & _ & H). apply Hmis in H. discriminate. }
  split; [|done]. intros _.
  split; [by apply Hdup|]. split; [by apply Hunx | by apply Hmis].
Qed.

End Binding.

(** ** The message tool *)

Section MessageToolProperties.
Import Py MessageTool.

Lemma execute_binds (arguments : gmap string json) :
  bind_keywords execute_signature arguments = Returns arguments <->
  is_Some (arguments !! "content") /\ arguments !! "self" = None.
Proof.
  rewrite bind_keywords_returns. cbn. split.
  - intros (Hpos & _ & Hreq). split; [apply Hreq; by left|].
    destruct (arguments !! "self") as [v|] eqn:Hself; [|done].
    exfalso. apply (Hpos "self"); [by rewrite Hself | by left].
  - intros [Hcontent Hself]. split; [|split; [by left|]].
    + intros k Hk [<- | []]. rewrite Hself in Hk. by destruct Hk.
    + by intros p [<- | []].
Qed.

(** C8, as amended.  Invoked with an argument mapping that has the key
    content and does not have the key self, MessageTool.execute succeeds
    and returns "Message displayed".  With any other mapping the call
    raises a TypeError while the arguments are bound, before the body of
    execute runs.  Whenever execute returns, it returns that same
    string. *)
Theorem message_tool_execute_acknowledges (arguments : gmap string json) :
  (is_Some (arguments !! "content") /\ arguments !! "self" = None ->
   execute arguments = Returns "Message displayed")
  /\ (arguments !! "content" = None \/ is_Some (arguments !! "self") ->
      exists e, execute arguments = Raises e /\ is_TypeError e = true)
  /\ (forall text, execute arguments = Returns text -> text = "Message displayed").
Proof.
  unfold execute. split; [|split].
  - intros H. apply execute_binds in H. by rewrite H.
  - intros H.
    destruct (bind_keywords_cases execute_signature arguments) as [Hr | (e & He & Hty)].
    + apply execute_binds in Hr as [Hcontent Hself].
      destruct H as [H | H]; [rewrite H in Hcontent | rewrite Hself in H];
        by inversion_clear 1 || (exfalso; eapply is_Some_None; eauto).
    + exists e. by rewrite He.
  - intros text. destruct (bind_keywords _ _); cbn; [|discriminate].
    by intros [= <-].
Qed.

End MessageToolProperties.

(** C8, the claim as stated fails.  The model may request the message tool
    with an empty argument mapping; the call then raises instead of
    returning the acknowledgment. *)
Lemma message_tool_execute_needs_content :
  MessageTool.execute ∅
  = Py.Raises (Py.TypeError
                 "MessageTool.execute() missing 1 required positional argument: 'content'").
Proof. reflexivity. Qed.

(** C8, the amended claim at a concrete input. *)
Lemma message_tool_execute_acknowledges_witness :
  MessageTool.execute {[ "content" := Py.JStr "hi" ]} = Py.Returns "Message displayed".
Proof.
  apply (proj1 (message_tool_execute_acknowledges {[ "content" := Py.JStr "hi" ]})).
  split; [by eexists | reflexivity].
Defined.

(** ** The CLI helper *)

Section MakeProvider.
Import Py Commands.

(** The registry knows OpenRouter only, so no model name is detected as an
    Ollama model. *)
Lemma find_by_model_not_ollama model :
  Schema.is_ollama (option_map Registry.name (Registry.find_by_model model)) = false.
Proof.
  unfold Registry.find_by_model, Registry.PROVIDERS. cbn.
  by destruct (Str.contains "openrouter" (Str.lower model)).
Qed.

(** C9.  For every configuration whose (OpenRouter) API key is not empty
    and every model, _make_provider prints nothing and raises a TypeError
    instead of returning a provider: the constructor is called with the
    keyword provider_name, which LiteLLMProvider.__init__ does not
    accept. *)
Theorem make_provider_raises_TypeError
    (rt : LiteLLM.runtime) (config : Schema.Config) (model : option string) :
  Schema.api_key (Schema.openrouter (Schema.providers config)) <> "" ->
  _make_provider rt config model
  = ([], Raises (TypeError
                   "LiteLLMProvider.__init__() got an unexpected keyword argument 'provider_name'")).
Proof.
  intros Hkey. unfold _make_provider.
  rewrite find_by_model_not_ollama.
  unfold Schema.get_api_key. cbn [Schema.is_ollama].
  destruct (Schema.api_key _) as [|c key] eqn:Hk; [done|].
  cbn [truthy_str negb andb].
  unfold LiteLLM.LiteLLMProvider_new.
  generalize (JStr (String c key)), (JStr (Schema.get_api_base config None)),
    (JStr (str_or model (Schema.model (Schema.defaults (Schema.agents config))))).
  intros j1 j2 j3.
  match goal with |- context [option_json ?x] => generalize (option_json x) end.
  intros j4. vm_compute. reflexivity.
Qed.

End MakeProvider.

(** C9 at a concrete input: the configuration of the tests, with the API
    key "sk-or-v1-test". *)
Lemma make_provider_raises_TypeError_witness :
  let config :=
    Schema.mkConfig
      (Schema.agents Schema.default_config)
      (Schema.mkProvidersConfig (Schema.mkProviderConfig "sk-or-v1-test" None)
                                (Schema.mkProviderConfig "" None))
      (Schema.tools Schema.default_config) in
  Commands._make_provider (LiteLLM.mkRuntime ∅ None false false) config None
  = ([], Py.Raises (Py.TypeError
        "LiteLLMProvider.__init__() got an unexpected keyword argument 'provider_name'")).
Proof.
  intros config.
  apply (make_provider_raises_TypeError (LiteLLM.mkRuntime ∅ None false false) config None).
  discriminate.
Defined.

(** ** The agent loop *)

Section LoopProperties.
Import Py Base AgentLoop.

Variable provider_state : Type.
Variable chat :
  provider_state -> list Message -> list json -> string -> Z -> float ->
  LLMResponse * provider_state.
Variable registry : gmap string Tool.
Variable describe : ToolCallRequest -> string.
Variable unknown_tool_text : string -> string.
Variable tool_fault_text : exn -> string.
Variable limit_text : string.
Variable cfg : settings.

Local Abbreviation dispatch_all :=
  (AgentLoop.dispatch_all (provider_state := provider_state) registry describe
                          unknown_tool_text tool_fault_text).
Local Abbreviation iterate :=
  (AgentLoop.iterate chat registry describe unknown_tool_text tool_fault_text limit_text cfg).
Local Abbreviation process_direct :=
  (AgentLoop.process_direct chat registry describe unknown_tool_text tool_fault_text
                            limit_text cfg).
Local Abbreviation answered := (AgentLoop.answered chat registry cfg).

(** Dispatching tools calls no Provider and only appends to the history. *)
Lemma dispatch_all_frame tcs st :
  pstate (dispatch_all tcs st) = pstate st
  /\ provider_calls (dispatch_all tcs st) = provider_calls st
  /\ exists added, history (dispatch_all tcs st) = (history st ++ added)%list.
Proof.
  unfold AgentLoop.dispatch_all.
  revert st. induction tcs as [|tc tcs IH]; intros st; cbn.
  - repeat split. exists []. by rewrite app_nil_r.
  - destruct (IH (dispatch registry describe unknown_tool_text tool_fault_text tc st))
      as (Hps & Hcalls & added & Hadded).
    rewrite Hps, Hcalls, Hadded. unfold dispatch.
    destruct (registry !! tc_name tc) as [t|]; cbn;
      repeat split; eexists; by rewrite <- app_assoc.
Qed.

(** [k] iterations make at most [k] Provider calls, one after the other on
    the provider's state; they only append to the history; and they end by
    the limit only after exactly [k] calls. *)
Lemma iterate_calls k st st' answer how :
  iterate k st = (st', answer, how) ->
  exists requests added,
    provider_calls st' = (provider_calls st ++ requests)%list
    /\ (length requests <= k)%nat
    /\ pstate st' = fold_left answered requests (pstate st)
    /\ history st' = (history st ++ added)%list
    /\ (how = LIMIT_REACHED -> answer = Some limit_text /\ length requests = k).
Proof.
  revert st. induction k as [|k IH]; intros st; cbn [AgentLoop.iterate].
  - intros [= <- <- <-]. exists [], []. rewrite !app_nil_r. by repeat split.
  - destruct (chat _ _ _ _ _ _) as [resp ps] eqn:Hchat; cbn [history pstate provider_calls progress].
    assert (Hps : ps = answered (pstate st) (history st)).
    { unfold AgentLoop.answered. by rewrite Hchat. }
    destruct (String.eqb (finish_reason resp) "error").
    { intros [= <- <- <-]; cbn. exists [history st]. eexists.
      repeat split; [cbn; lia | by cbn | discriminate | discriminate]. }
    destruct (tool_calls resp) as [|tc tcs] eqn:Htcs.
    { intros [= <- <- <-]; cbn. exists [history st]. eexists.
      repeat split; [cbn; lia | by cbn | discriminate | discriminate]. }
    intros Hit. apply IH in Hit as (requests & added & Hcalls & Hlen & Hstate & Hhist & Hlimit).
    match type of Hcalls with
    | context [AgentLoop.dispatch_all _ _ _ _ ?l ?st0] =>
        destruct (dispatch_all_frame l st0) as (Hps' & Hcalls' & added' & Hadded')
    end.
    rewrite Hcalls' in Hcalls. rewrite Hps' in Hstate. rewrite Hadded' in Hhist.
    cbn [history pstate provider_calls progress] in Hcalls, Hstate, Hhist.
    exists (history st :: requests). eexists.
    repeat split.
    + by rewrite Hcalls, <- app_assoc.
    + cbn; lia.
    + cbn. by rewrite <- Hps.
    + rewrite Hhist, <- !app_assoc. reflexivity.
    + by apply Hlimit.
    + cbn. f_equal. by apply Hlimit.
Qed.

(** C3.  For every iteration cap K and every turn, process_direct makes at
    most K Provider calls, one after the other, and then ends with a final
    answer: either the turn is done, or the limit was reached after exactly
    K calls and the answer is the text that reports it. *)
Theorem process_direct_calls_provider_at_most_K (ls : loop_state provider_state)
    (user_text session_id : string) :
  let r := process_direct ls user_text session_id in
  (length (calls_made r) <= max_iterations cfg)%nat
  /\ provider (after r) = fold_left answered (calls_made r) (provider ls)
  /\ match ended r with
     | DONE => True
     | LIMIT_REACHED =>
         final_text r = Some limit_text
         /\ length (calls_made r) = max_iterations cfg
     end.
Proof.
  unfold AgentLoop.process_direct.
  match goal with |- context [AgentLoop.iterate _ _ _ _ _ _ _ ?k ?st] =>
    destruct (iterate k st) as [[st' answer] how] eqn:Hit
  end.
  apply iterate_calls in Hit as (requests & added & Hcalls & Hlen & Hstate & _ & Hlimit).
  cbn in *. subst. repeat split; try done.
  destruct how; [done|]. by apply Hlimit.
Qed.

End LoopProperties.

(** ** The memory window *)

Section MemoryWindow.
Import Py Base AgentLoop.

Lemma pinned_evictable h : h = (pinned h ++ evictable h)%list.
Proof. destruct h as [|m h]; [done|]. unfold pinned, evictable. by destruct (is_system m). Qed.

(** The eviction loop drops a prefix, the oldest messages, and no more of
    them than the bound asks for. *)
Lemma evict_until_drop kept N e :
  evict_until kept N e = drop (length e - (N - kept)) e.
Proof.
  induction e as [|m e IH]; [done|].
  cbn [evict_until]. destruct (Nat.leb_spec (kept + length (m :: e)) N) as [Hle|Hgt].
  - replace (length (m :: e) - (N - kept))%nat with 0%nat by (cbn in *; lia). done.
  - rewrite IH. cbn [length] in *.
    replace (S (length e) - (N - kept))%nat with (S (length e - (N - kept))) by lia.
    done.
Qed.

Lemma trim_drop N h :
  trim N h
  = (pinned h ++ drop (length (evictable h) - (N - length (pinned h))) (evictable h))%list.
Proof. unfold trim. by rewrite evict_until_drop. Qed.

Lemma length_trim N h :
  (length (trim N h) <= Nat.max N (length (pinned h)))%nat.
Proof. rewrite trim_drop, length_app, length_drop. lia. Qed.

Lemma length_trim_exact N h :
  (length (pinned h) <= N)%nat -> length (trim N h) = Nat.min N (length h).
Proof.
  intros Hp. rewrite trim_drop, length_app, length_drop.
  assert (Hlen : length h = (length (pinned h) + length (evictable h))%nat).
  { rewrite <- length_app. f_equal. apply pinned_evictable. }
  lia.
Qed.

Variable provider_state : Type.
Variable chat :
  provider_state -> list Message -> list json -> string -> Z -> float ->
  LLMResponse * provider_state.
Variable registry : gmap string Tool.
Variable describe : ToolCallRequest -> string.
Variable unknown_tool_text : string -> string.
Variable tool_fault_text : exn -> string.
Variable limit_text : string.
Variable cfg : settings.

Local Abbreviation process_direct :=
  (AgentLoop.process_direct chat registry describe unknown_tool_text tool_fault_text
                            limit_text cfg).

(** A turn stores the trimmed history; untrimmed, it is the session's
    history followed by the user message and by what the loop appended. *)
Lemma process_direct_history (ls : loop_state provider_state) (user_text session_id : string) :
  let r := process_direct ls user_text session_id in
  sessions (after r) !! session_id = Some (trim (memory_window cfg) (untrimmed r))
  /\ exists added,
       untrimmed r
       = ((default [] (sessions ls !! session_id) ++ [user_message user_text]) ++ added)%list.
Proof.
  unfold AgentLoop.process_direct.
  match goal with |- context [AgentLoop.iterate _ _ _ _ _ _ _ ?k ?st] =>
    destruct (AgentLoop.iterate chat registry describe unknown_tool_text tool_fault_text
                                limit_text cfg k st) as [[st' answer] how] eqn:Hit
  end.
  apply iterate_calls in Hit as (requests & added & _ & _ & _ & Hhist & _).
  cbn in *. split; [by rewrite lookup_insert_eq | by exists added].
Qed.

(** C4, as amended.  After every completed turn the stored history is the
    untrimmed one without its oldest messages that are not pinned: it is
    the pinned leading system message, if there is one, followed by the
    most recent of the other messages.  Its length is at most the memory
    window N, except that a pinned message stays even when N is 0; no more
    messages are evicted than the window asks for; and a system message
    that led the session's history before the turn still leads it. *)
Theorem stored_history_within_memory_window
    (ls : loop_state provider_state) (user_text session_id : string) :
  let r := process_direct ls user_text session_id in
  let N := memory_window cfg in
  exists stored evicted,
    sessions (after r) !! session_id = Some stored
    /\ untrimmed r = (pinned (untrimmed r) ++ evictable (untrimmed r))%list
    /\ stored = (pinned (untrimmed r) ++ drop evicted (evictable (untrimmed r)))%list
    /\ (length stored <= Nat.max N (length (pinned (untrimmed r))))%nat
    /\ ((length (pinned (untrimmed r)) <= N)%nat ->
        length stored = Nat.min N (length (untrimmed r)))
    /\ (forall m rest,
           sessions ls !! session_id = Some (m :: rest) -> is_system m = true ->
           exists kept, stored = m :: kept).
Proof.
  intros r N.
  destruct (process_direct_history ls user_text session_id) as [Hstored [added Hfull]].
  fold r in Hstored, Hfull. fold N in Hstored.
  exists (trim N (untrimmed r)).
  exists (length (evictable (untrimmed r)) - (N - length (pinned (untrimmed r))))%nat.
  split; [done|]. split; [apply pinned_evictable|]. split; [apply trim_drop|].
  split; [apply length_trim|]. split; [apply length_trim_exact|].
  intros m rest Hsession Hsys. rewrite trim_drop, Hfull, Hsession. cbn.
  rewrite Hsys. cbn. eauto.
Qed.

End MemoryWindow.

(** C4, the claim as stated fails.  With a memory window of 0 and a session
    that starts with a system message, the turn of Scenario A leaves that
    message in the stored history, whose length, 1, is above the window. *)
Lemma pinned_message_exceeds_empty_window :
  let ls := AgentLoop.mkLoopState {[ "default" := [AgentLoop.system_prompt] ]} tt in
  let r := AgentLoop.process_direct AgentLoop.answers_4 AgentLoop.example_registry
             AgentLoop.example_describe AgentLoop.example_unknown AgentLoop.example_fault
             AgentLoop.example_limit (AgentLoop.example_settings 20 0)
             ls "What is 2+2" "default" in
  AgentLoop.sessions (AgentLoop.after r) !! "default" = Some [AgentLoop.system_prompt]
  /\ ~ (length [AgentLoop.system_prompt] <= 0)%nat.
Proof. split; [vm_compute; reflexivity | cbn; lia]. Qed.

(** C4, the amended claim at a concrete input: the same session and turn
    with a memory window of 2.  Of system, user and assistant message, the
    user message is evicted. *)
Lemma stored_history_within_memory_window_witness :
  let ls := AgentLoop.mkLoopState {[ "default" := [AgentLoop.system_prompt] ]} tt in
  let r := AgentLoop.process_direct AgentLoop.answers_4 AgentLoop.example_registry
             AgentLoop.example_describe AgentLoop.example_unknown AgentLoop.example_fault
             AgentLoop.example_limit (AgentLoop.example_settings 20 2)
             ls "What is 2+2" "default" in
  exists stored,
    AgentLoop.sessions (AgentLoop.after r) !! "default" = Some stored
    /\ length stored = 2%nat
    /\ exists kept, stored = AgentLoop.system_prompt :: kept.
Proof.
  intros ls r.
  destruct (stored_history_within_memory_window unit AgentLoop.answers_4
              AgentLoop.example_registry AgentLoop.example_describe
              AgentLoop.example_unknown AgentLoop.example_fault AgentLoop.example_limit
              (AgentLoop.example_settings 20 2) ls "What is 2+2" "default")
    as (stored & evicted & Hstored & _ & _ & _ & Hlen & Hpin).
  exists stored. split; [exact Hstored|]. split.
  - apply Hlen. vm_compute. lia.
  - apply (Hpin AgentLoop.system_prompt []); reflexivity.
Defined.

(** ** The scenarios of the specification, evaluated *)

(** Scenario A: one Provider call, the answer "4", history user then
    assistant. *)
Example scenario_A :
  let r := AgentLoop.process_direct AgentLoop.answers_4 AgentLoop.example_registry
             AgentLoop.example_describe AgentLoop.example_unknown AgentLoop.example_fault
             AgentLoop.example_limit (AgentLoop.example_settings 20 50)
             (AgentLoop.mkLoopState ∅ tt) "What is 2+2" "default" in
  length (AgentLoop.calls_made r) = 1%nat
  /\ AgentLoop.final_text r = Some "4"
  /\ map AgentLoop.msg_role (AgentLoop.untrimmed r)
     = [AgentLoop.RoleUser; AgentLoop.RoleAssistant].
Proof. vm_compute. repeat split. Qed.

(** Scenario C: with a cap of 1 and a Provider that always asks for a tool,
    the turn ends after one call with the text reporting the limit; the
    tool's acknowledgment is in the history. *)
Example scenario_C :
  let r := AgentLoop.process_direct AgentLoop.always_calls_message AgentLoop.example_registry
             AgentLoop.example_describe AgentLoop.example_unknown AgentLoop.example_fault
             AgentLoop.example_limit (AgentLoop.example_settings 1 50)
             (AgentLoop.mkLoopState ∅ 0%nat) "hello" "default" in
  length (AgentLoop.calls_made r) = 1%nat
  /\ AgentLoop.ended r = AgentLoop.LIMIT_REACHED
  /\ AgentLoop.final_text r = Some "Iteration limit reached"
  /\ map AgentLoop.msg_content (AgentLoop.untrimmed r)
     = [Some "hello"; None; Some "Message displayed"]
  /\ AgentLoop.progress_lines r = ["Running message"].
Proof. vm_compute. repeat split. Qed.

(** Two messages published inbound are consumed in that order, whatever is
    published outbound in between. *)
Example bus_first_in_first_out :
  let a := Events.mkUserMessage "a" 1 in
  let b := Events.mkUserMessage "b" 2 in
  let z := Events.mkAssistantMessage "z" 3 in
  Queue.run [Queue.PublishInbound a; Queue.PublishOutbound z; Queue.PublishInbound b;
             Queue.ConsumeInbound; Queue.ConsumeInbound; Queue.ConsumeInbound]
            Queue.fresh
  = (Queue.mkMessageBus [] [z], Queue.mkDelivered [a; b] []).
Proof. reflexivity. Qed.

(** A request for no tokens at all is sent as a request for one. *)
Example chat_kwargs_of_zero_tokens :
  LiteLLM.chat_kwargs LiteLLM.example_provider LiteLLM.example_messages (Some []) None 0
                      0x1.6666666666666p-1%float !! "max_tokens"
  = Some (Py.JInt 1).
Proof. reflexivity. Qed.

(* ===================================================================== *)
(** * Part III.  Further properties of the code                           *)
(* ===================================================================== *)

(** ** The message bus, continued *)

Section BusLaws.
Import Events Queue.

(** X1.  Publishing and then consuming on one queue: on an empty queue the
    consumer gets the message just published and the bus is as before; on
    a queue with pending messages the consumer gets the oldest of them,
    exactly as if it had consumed first and the message had been published
    afterwards. *)
Theorem publish_then_consume (bus : MessageBus) (m : UserMessage) (m' : AssistantMessage) :
  consume_inbound (publish_inbound bus m)
  = match consume_inbound bus with
    | None => Some (m, bus)
    | Some (oldest, bus') => Some (oldest, publish_inbound bus' m)
    end
  /\ consume_outbound (publish_outbound bus m')
     = match consume_outbound bus with
       | None => Some (m', bus)
       | Some (oldest, bus') => Some (oldest, publish_outbound bus' m')
       end.
Proof.
  destruct bus as [i o]. unfold consume_inbound, consume_outbound, publish_inbound,
    publish_outbound, put, get; cbn.
  split; [by destruct i | by destruct o].
Qed.

(** X2.  Consuming as many times as the size accessor says always
    completes: it delivers every pending message of that queue, oldest
    first, empties the queue and leaves the other queue alone.  One more
    consume finds the queue empty and delivers nothing. *)
Theorem consume_size_times_drains (bus : MessageBus) (d : delivered) :
  let drained_in := run (repeat ConsumeInbound (inbound_size bus)) (bus, d) in
  let drained_out := run (repeat ConsumeOutbound (outbound_size bus)) (bus, d) in
  (drained_in = (mkMessageBus [] (outbound bus),
                 mkDelivered (from_inbound d ++ inbound bus) (from_outbound d))
   /\ step drained_in ConsumeInbound = drained_in)
  /\ (drained_out = (mkMessageBus (inbound bus) [],
                     mkDelivered (from_inbound d) (from_outbound d ++ outbound bus))
      /\ step drained_out ConsumeOutbound = drained_out).
Proof.
  destruct bus as [i o], d as [d_in d_out]. unfold inbound_size, outbound_size, qsize.
  cbn [inbound outbound from_inbound from_outbound].
  rewrite drain_inbound, drain_outbound. by repeat split.
Qed.

End BusLaws.

(** ** The provider's request, continued *)

Section RequestContents.
Import Py Base Backend LiteLLM.



End RequestContents.

(** ** Parsing the reply, continued *)

Section ReplyShape.
Import Py Base Backend LiteLLM.

Variable acompletion : gmap string json -> outcome ModelResponse.
Variable json_repair_loads : string -> outcome json.

(** X5.  A reply without any choice is reported, not raised: whatever the
    request, chat returns the error response whose content is
    "Error calling LLM: list index out of range", with the finish reason
    "error", no tool call and no usage. *)
Theorem chat_reply_without_choices self messages tools model max_tokens temperature r :
  acompletion (chat_kwargs self messages tools model max_tokens temperature) = Returns r ->
  choices r = [] ->
  chat acompletion json_repair_loads self messages tools model max_tokens temperature
  = Returns (mkLLMResponse (Some "Error calling LLM: list index out of range") [] "error" ∅).
Proof.
  intros Hcall Hchoices.
  rewrite (chat_unfold acompletion json_repair_loads), Hcall. cbn.
  unfold _parse_response. by rewrite Hchoices.
Qed.

Lemma parse_tool_calls_returns tcs : forall reqs,
  parse_tool_calls json_repair_loads tcs = Returns reqs ->
  map tc_id reqs = map tool_call_id tcs
  /\ map tc_name reqs = map (fun tc => function_name (function tc)) tcs.
Proof.
  induction tcs as [|tc tcs IH]; intros reqs; cbn.
  - by intros [= <-].
  - unfold parse_tool_call at 1.
    destruct (match function_arguments (function tc) with JStr s => _ | _ => _ end)
      as [args|e]; cbn; [|discriminate].
    destruct (parse_tool_calls json_repair_loads tcs) as [rs|e]; cbn; [|discriminate].
    intros [= <-]. destruct (IH rs eq_refl) as [Hids Hnames]. cbn.
    by rewrite Hids, Hnames.
Qed.

(** X6.  Whenever parsing a reply returns a response, that response is
    read off the first choice and the reply's usage: its content is the
    content of the first choice's message; its tool calls are those of that
    message, none dropped or added, with their ids and names in the order
    issued; and its usage is empty when the reply has none, and otherwise
    has exactly the three counters prompt_tokens, completion_tokens and
    total_tokens with the reply's values. *)
Theorem parsed_response_shape (r : ModelResponse) (resp : LLMResponse) :
  _parse_response json_repair_loads r = Returns resp ->
  exists choice,
    head (choices r) = Some choice
    /\ content resp = message_content (message choice)
    /\ map tc_id (tool_calls resp)
       = map tool_call_id (has_items (message_tool_calls (message choice)))
    /\ map tc_name (tool_calls resp)
       = map (fun tc => function_name (function tc))
             (has_items (message_tool_calls (message choice)))
    /\ match response_usage r with
       | Attr (Some u) =>
           usage resp !! "prompt_tokens" = Some (prompt_tokens u)
           /\ usage resp !! "completion_tokens" = Some (completion_tokens u)
           /\ usage resp !! "total_tokens" = Some (total_tokens u)
           /\ dom (usage resp)
              = ({[ "prompt_tokens"; "completion_tokens"; "total_tokens" ]} : gset string)
       | Attr None | Absent => usage resp = ∅
       end.
Proof.
  unfold _parse_response.
  destruct (choices r) as [|choice rest]; [discriminate|].
  destruct (parse_tool_calls _ _) as [reqs|e] eqn:Hreqs; [|discriminate].
  cbn. intros [= <-]. cbn.
  apply parse_tool_calls_returns in Hreqs as [Hids Hnames].
  exists choice. repeat split; try done.
  destruct (response_usage r) as [|[u|]]; cbn; [done| |done].
  repeat split;
    first [by simplify_map_eq | rewrite !dom_insert_L, dom_empty_L; set_solver].
Qed.

Lemma parse_tool_calls_structured tcs :
  Forall (fun tc => is_str (function_arguments (function tc)) = false) tcs ->
  parse_tool_calls json_repair_loads tcs
  = Returns (map (fun tc => mkToolCallRequest (tool_call_id tc)
                                              (function_name (function tc))
                                              (function_arguments (function tc))) tcs).
Proof.
  induction 1 as [|tc tcs Htc _ IH]; [reflexivity|].
  cbn [parse_tool_calls map]. rewrite IH. unfold parse_tool_call.
  by destruct (function_arguments (function tc)).
Qed.

(** X7.  [json_repair.loads] is called on text only.  When no tool call of
    the first choice has text as its arguments, parsing returns whatever
    [json_repair.loads] would do, even raise, and every tool call is
    forwarded with the arguments it came with. *)
Theorem structured_arguments_bypass_json_repair
    (r : ModelResponse) (choice : Choice) (rest : list Choice) :
  choices r = choice :: rest ->
  Forall (fun tc => is_str (function_arguments (function tc)) = false)
         (has_items (message_tool_calls (message choice))) ->
  exists resp,
    _parse_response json_repair_loads r = Returns resp
    /\ tool_calls resp
       = map (fun tc => mkToolCallRequest (tool_call_id tc)
                                          (function_name (function tc))
                                          (function_arguments (function tc)))
             (has_items (message_tool_calls (message choice))).
Proof.
  intros Hchoices Hargs. unfold _parse_response. rewrite Hchoices.
  rewrite (parse_tool_calls_structured _ Hargs). cbn. eauto.
Qed.

End ReplyShape.

(** X5 at a concrete input. *)
Lemma chat_reply_without_choices_witness :
  LiteLLM.chat (fun _ => Py.Returns (Backend.mkModelResponse [] (Backend.Attr None)))
               (fun _ => Py.Raises (Py.Exn (Py.Exception_sub "ValueError") "unused"))
               LiteLLM.example_provider LiteLLM.example_messages
               (Some [Py.JDict [("name", Py.JStr "message")]]) (Some "gpt-4o") 0
               0x1.6666666666666p-1%float
  = Py.Returns (Base.mkLLMResponse (Some "Error calling LLM: list index out of range")
                                   [] "error" ∅).
Proof.
  apply (chat_reply_without_choices _ _ _ _ _ _ _ _
           (Backend.mkModelResponse [] (Backend.Attr None))); reflexivity.
Defined.

(** X6 at a concrete input: a reply with text, one tool call and usage. *)
Lemma parsed_response_shape_witness :
  let tc := Backend.mkToolCall "call_7"
              (Backend.mkFunction "message" (Py.JDict [("content", Py.JStr "hi")])) in
  let r := Backend.mkModelResponse
             [Backend.mkChoice (Backend.mkMessage (Some "ok") (Backend.Attr (Some [tc])))
                               (Some "tool_calls")]
             (Backend.Attr (Some (Backend.mkUsage 12 3 15))) in
  exists resp,
    LiteLLM._parse_response (fun _ => Py.Returns Py.JNull) r = Py.Returns resp
    /\ Base.content resp = Some "ok"
    /\ map Base.tc_id (Base.tool_calls resp) = ["call_7"]
    /\ Base.usage resp !! "total_tokens" = Some 15.
Proof.
  intros tc r. eexists. split; [reflexivity|].
  destruct (parsed_response_shape (fun _ => Py.Returns Py.JNull) r _ eq_refl)
    as (choice & Hhead & Hcontent & Hids & _ & _ & _ & Htotal & _).
  injection Hhead as <-.
  split; [exact Hcontent | split; [exact Hids | exact Htotal]].
Defined.

(** X7 at a concrete input: [json_repair.loads] would raise, and is not
    called. *)
Lemma structured_arguments_bypass_json_repair_witness :
  let tc := Backend.mkToolCall "call_7"
              (Backend.mkFunction "message" (Py.JDict [("content", Py.JStr "hi")])) in
  let choice := Backend.mkChoice (Backend.mkMessage None (Backend.Attr (Some [tc]))) None in
  exists resp,
    LiteLLM._parse_response
      (fun _ => Py.Raises (Py.Exn (Py.Exception_sub "ValueError") "not called"))
      (Backend.mkModelResponse [choice] Backend.Absent)
    = Py.Returns resp
    /\ Base.tool_calls resp
       = [Base.mkToolCallRequest "call_7" "message" (Py.JDict [("content", Py.JStr "hi")])].
Proof.
  intros tc choice.
  apply (structured_arguments_bypass_json_repair _
           (Backend.mkModelResponse [choice] Backend.Absent) choice [] eq_refl).
  repeat constructor.
Defined.

(** ** Constructing the provider *)

Section Constructor.
Import Py Base Backend LiteLLM.






End Constructor.




(** ** The provider registry *)

Section RegistryProperties.
Import Py Registry.

Lemma prefix_app p s : String.prefix p s = true <-> exists rest, s = p +:+ rest.
Proof.
  revert p. induction s as [|c' s IH]; intros [|c p]; cbn.
  - split; [by exists "" | done].
  - split; [done | by intros [rest [=]]].
  - split; [intros _; by eexists | done].
  - destruct (ascii_dec c c') as [<-|Hne].
    + rewrite IH. split; intros [rest Hrest]; exists rest;
        [by rewrite Hrest | by injection Hrest].
    + split; [done|]. intros [rest [= Hc _]]. by destruct Hne.
Qed.

(** [contains] is the substring test. *)
Lemma contains_app needle hay :
  Str.contains needle hay = true <-> exists pre post, hay = pre +:+ needle +:+ post.
Proof.
  induction hay as [|c hay IH]; cbn [Str.contains].
  - rewrite orb_false_r, prefix_app. split.
    + intros [rest Hrest]. by exists "", rest.
    + intros (pre & post & Hhay). destruct pre; [by exists post|discriminate].
  - rewrite orb_true_iff, prefix_app, IH. split.
    + intros [[rest Hrest] | (pre & post & Hhay)].
      * by exists "", rest.
      * exists (String c pre), post. simpl. by rewrite Hhay.
    + intros (pre & post & Hhay). destruct pre as [|c' pre]; simpl in Hhay.
      * left. by exists post.
      * right. injection Hhay as _ Hhay. by exists pre, post.
Qed.

Lemma lower_app a b : Str.lower (a +:+ b) = Str.lower a +:+ Str.lower b.
Proof. induction a as [|c a IH]; simpl; [done | by rewrite IH]. Qed.

Lemma lower_split s : forall a b,
  Str.lower s = a +:+ b ->
  exists s1 s2, s = s1 +:+ s2 /\ Str.lower s1 = a /\ Str.lower s2 = b.
Proof.
  induction s as [|c s IH]; intros a b Hs.
  - destruct a; [|discriminate]. change ("" = b) in Hs. subst b. by exists "", "".
  - destruct a as [|c' a].
    + change (Str.lower (String c s) = b) in Hs. subst b. by exists "", (String c s).
    + change (String (Str.lower_ascii c) (Str.lower s) = String c' (a +:+ b)) in Hs.
      injection Hs as <- Hs. destruct (IH a b Hs) as (s1 & s2 & -> & <- & <-).
      by exists (String c s1), s2.
Qed.

(** X11.  find_by_model finds OpenRouter exactly for the model names that
    contain the word openrouter somewhere, in any mix of upper and lower
    case letters; it finds no other provider. *)
Theorem find_by_model_matches_keyword_anywhere (model : string) :
  (is_Some (find_by_model model) <->
   exists pre word post,
     model = pre +:+ word +:+ post /\ Str.lower word = "openrouter")
  /\ (forall spec, find_by_model model = Some spec ->
                   name spec = "openrouter" /\ In spec PROVIDERS).
Proof.
  unfold find_by_model, PROVIDERS. cbn. rewrite orb_false_r.
  destruct (Str.contains "openrouter" (Str.lower model)) eqn:Hc; split.
  - split; [intros _|by eauto].
    apply contains_app in Hc as (pre & post & Hlow).
    apply lower_split in Hlow as (s1 & s23 & -> & _ & Hlow).
    apply lower_split in Hlow as (s2 & s3 & -> & Hword & _).
    by exists s1, s2, s3.
  - intros spec [= <-]. split; [done | by left].
  - split; [by intros [? [=]]|].
    intros (pre & word & post & -> & Hword). exfalso.
    assert (Str.contains "openrouter" (Str.lower (pre +:+ word +:+ post)) = true);
      [|congruence].
    apply contains_app. exists (Str.lower pre), (Str.lower post).
    by rewrite !lower_app, Hword.
  - by intros spec [=].
Qed.

(** X12.  find_gateway detects OpenRouter by any of three signs: the
    provider name "openrouter", an API key that starts with "sk-or-", or an
    API base that contains "openrouter" (in lower case, as written).  It
    returns nothing when none of the three is present, and what it returns
    is always a gateway of the registry.  A provider name it does not know
    does not stand in the way of the other two signs. *)
Theorem find_gateway_signs (provider_name api_key api_base : option string) :
  (is_Some (find_gateway provider_name api_key api_base) <->
   provider_name = Some "openrouter"
   \/ (exists k, api_key = Some k /\ Str.startswith k "sk-or-" = true)
   \/ (exists b, api_base = Some b /\ Str.contains "openrouter" b = true))
  /\ (forall spec, find_gateway provider_name api_key api_base = Some spec ->
                   In spec PROVIDERS /\ is_gateway spec = true).
Proof.
  assert (Hname : forall n, find_by_name n
                  = if String.eqb "openrouter" n then head PROVIDERS else None).
  { intros n. unfold find_by_name, PROVIDERS. cbn [List.find name].
    by destruct (String.eqb "openrouter" n). }
  assert (Hby : forall n,
             (if truthy_str (Some n) then
                match find_by_name n with
                | Some spec => if is_gateway spec || is_local spec then Some spec else None
                | None => None
                end
              else None)
             = if String.eqb "openrouter" n then head PROVIDERS else None).
  { intros n. rewrite Hname. destruct (String.eqb_spec "openrouter" n) as [<-|Hn]; [done|].
    by destruct (truthy_str _). }
  assert (Hkey : match api_key with
                 | Some k => truthy_str api_key && Str.startswith k "sk-or-"
                 | None => false
                 end = true
                 <-> exists k, api_key = Some k /\ Str.startswith k "sk-or-" = true).
  { destruct api_key as [[|c k]|]; cbn [truthy_str andb].
    - split; [done | by intros (k & [= <-] & ?)].
    - split; [by eauto | by intros (k' & [= <-] & ?)].
    - split; [done | by intros (k & [=] & ?)]. }
  assert (Hbase : match api_base with
                  | Some b => truthy_str api_base && Str.contains "openrouter" b
                  | None => false
                  end = true
                  <-> exists b, api_base = Some b /\ Str.contains "openrouter" b = true).
  { destruct api_base as [[|c b]|]; cbn [truthy_str andb].
    - split; [done | by intros (b & [= <-] & ?)].
    - split; [by eauto | by intros (b' & [= <-] & ?)].
    - split; [done | by intros (b & [=] & ?)]. }
  unfold find_gateway.
  destruct provider_name as [n|];
    [rewrite Hby; destruct (String.eqb_spec "openrouter" n) as [<-|Hn]|].
  - cbn. split; [split; [by left | by eauto]|]. intros spec [= <-]. split; [by left|done].
  - cbn. rewrite <- Hkey, <- Hbase.
    destruct (match api_key with Some _ => _ | None => _ end),
             (match api_base with Some _ => _ | None => _ end); cbn;
      (split; [split; [by eauto | intros [[= ?]|[?|?]]; by (congruence || eauto)]
              | intros spec [= <-]; split; (done || by left)]).
  - cbn. rewrite <- Hkey, <- Hbase.
    destruct (match api_key with Some _ => _ | None => _ end),
             (match api_base with Some _ => _ | None => _ end); cbn;
      (split; [split; [by eauto | intros [[=]|[?|?]]; by (congruence || eauto)]
              | intros spec [= <-]; split; (done || by left)]).
Qed.

End RegistryProperties.

(** ** The configuration *)

Section ConfigProperties.
Import Py Schema.

Lemma get_api_base_not_empty (config : Config) (provider : option string) :
  get_api_base config provider <> "".
Proof.
  unfold get_api_base.
  destruct (is_ollama provider);
    [destruct (api_base (ollama (providers config))) as [[|c b]|]
    |destruct (api_base (openrouter (providers config))) as [[|c b]|]]; by cbn.
Qed.

(** X13.  get_api_base never returns the empty string: for the provider
    asked for it gives the configured base, or the built-in URL of that
    provider when no base is configured or the configured one is empty. *)
Theorem get_api_base_never_empty (config : Config) (provider : option string) :
  get_api_base config provider <> ""
  /\ (get_api_base config provider
      = match api_base (if is_ollama provider then ollama (providers config)
                        else openrouter (providers config)) with
        | Some (String c b) => String c b
        | Some EmptyString | None =>
            if is_ollama provider then "http://localhost:11434"
            else "https://openrouter.ai/api/v1"
        end).
Proof.
  unfold get_api_base.
  destruct (is_ollama provider);
    [destruct (api_base (ollama (providers config))) as [[|c b]|]
    |destruct (api_base (openrouter (providers config))) as [[|c b]|]]; by cbn.
Qed.

(** X14.  Only the exact name "ollama" selects the Ollama settings.  For
    any other provider name, None included, get_api_key and get_api_base
    answer with the OpenRouter settings. *)
Theorem only_ollama_selects_ollama (config : Config) (provider : option string) :
  provider <> Some "ollama" ->
  get_api_key config provider = api_key (openrouter (providers config))
  /\ get_api_base config provider = get_api_base config None.
Proof.
  intros Hp. unfold get_api_key, get_api_base.
  assert (Hno : is_ollama provider = false).
  { destruct provider as [p|]; [|done]. cbn.
    destruct (String.eqb_spec p "ollama") as [->|]; [by destruct Hp | done]. }
  by rewrite Hno.
Qed.

(** X15.  Setting the OpenRouter API key or API base and reading it back:
    the key set is the key read, and setting it changes neither the base
    nor the Ollama settings; a base that is set and not empty is the base
    read, while a base set to None or to the empty string reads as the
    OpenRouter URL. *)
Theorem openrouter_settings_round_trip (config : Config) (key base : string) :
  get_api_key (set_openrouter_api_key key config) None = key
  /\ get_api_base (set_openrouter_api_key key config) None = get_api_base config None
  /\ get_api_key (set_openrouter_api_key key config) (Some "ollama")
     = get_api_key config (Some "ollama")
  /\ get_api_base (set_openrouter_api_key key config) (Some "ollama")
     = get_api_base config (Some "ollama")
  /\ get_api_base (set_openrouter_api_base (Some base) config) None
     = (if String.eqb base "" then "https://openrouter.ai/api/v1" else base)
  /\ get_api_base (set_openrouter_api_base None config) None
     = "https://openrouter.ai/api/v1"
  /\ get_api_key (set_openrouter_api_base (Some base) config) None
     = get_api_key config None.
Proof.
  repeat split; try done. unfold get_api_base. cbn. by destruct base.
Qed.

End ConfigProperties.

(** X14 at a concrete input: the name "Ollama", with a capital, reads the
    OpenRouter key. *)
Lemma only_ollama_selects_ollama_witness :
  let config :=
    Schema.mkConfig (Schema.agents Schema.default_config)
      (Schema.mkProvidersConfig (Schema.mkProviderConfig "sk-or-v1-test" None)
                                (Schema.mkProviderConfig "local" (Some "http://box:11434")))
      (Schema.tools Schema.default_config) in
  Schema.get_api_key config (Some "Ollama") = "sk-or-v1-test"
  /\ Schema.get_api_base config (Some "Ollama") = "https://openrouter.ai/api/v1".
Proof.
  intros config.
  destruct (only_ollama_selects_ollama config (Some "Ollama")) as [Hkey Hbase];
    [discriminate|].
  split; [exact Hkey | exact Hbase].
Defined.

(** ** The CLI helper, continued *)

Section MakeProviderNeverReturns.
Import Py Commands.

Lemma make_provider_without_key rt (config : Schema.Config) (model : option string) :
  Schema.api_key (Schema.openrouter (Schema.providers config)) = "" ->
  (_make_provider rt config model).2 = Raises (Exit 1).
Proof.
  intros Hkey. unfold _make_provider.
  rewrite find_by_model_not_ollama.
  unfold Schema.get_api_key. cbn [Schema.is_ollama]. by rewrite Hkey.
Qed.


(** X16.  _make_provider never returns a provider: for every configuration
    and every model it raises, typer.Exit when the OpenRouter API key is
    empty and a TypeError otherwise. *)
Theorem make_provider_never_returns
    (rt : LiteLLM.runtime) (config : Schema.Config) (model : option string) :
  exists e,
    (_make_provider rt config model).2 = Raises e
    /\ (if String.eqb (Schema.api_key (Schema.openrouter (Schema.providers config))) ""
        then e = Exit 1
        else is_TypeError e = true).
Proof.
  destruct (String.eqb_spec (Schema.api_key (Schema.openrouter (Schema.providers config))) "")
    as [Hkey|Hkey].
  - exists (Exit 1). by rewrite (make_provider_without_key rt config model Hkey).
  - unfold _make_provider.
    rewrite find_by_model_not_ollama.
    unfold Schema.get_api_key. cbn [Schema.is_ollama].
    destruct (Schema.api_key _) as [|c key]; [done|].
    cbn [truthy_str negb andb snd]. unfold LiteLLM.LiteLLMProvider_new.
    generalize (JStr (String c key)), (JStr (Schema.get_api_base config None)),
      (JStr (str_or model (Schema.model (Schema.defaults (Schema.agents config))))).
    intros j1 j2 j3.
    match goal with |- context [option_json ?x] => generalize (option_json x) end.
    intros j4. eexists. split; [vm_compute; reflexivity | reflexivity].
Qed.

End MakeProviderNeverReturns.


(** ** The status command *)

Section Status.
Import Py Commands.

Variable logo : string.

(** X18.  The status command always reports Ollama as configured.  When
    the configuration file exists it prints six lines, and the last one is
    "Ollama: " with the green check mark and the Ollama API base, which is
    "http://localhost:11434" when none is configured; it is never the line
    that shows that URL as a default in dim print.  When the file does not
    exist it prints the first three lines only. *)
Theorem status_reports_ollama_configured
    (config_path workspace : string) (config_exists workspace_exists : bool)
    (config : Schema.Config) :
  let lines := status logo config_path config_exists workspace workspace_exists config in
  if config_exists then
    length lines = 6%nat
    /\ List.last lines ""
       = "Ollama: " +:+ "[green]✓[/green] " +:+ Schema.get_api_base config (Some "ollama")
    /\ List.last lines "" <> "Ollama: " +:+ "[dim]http://localhost:11434 (default)[/dim]"
  else length lines = 3%nat.
Proof.
  unfold status. destruct config_exists; [|done].
  pose proof (get_api_base_not_empty config (Some "ollama")) as Hne.
  destruct (Schema.get_api_base config (Some "ollama")) as [|c base] eqn:Hbase; [done|].
  cbn [truthy_str orb]. split; [done|]. split; [done|].
  simpl. discriminate.
Qed.

End Status.

(** ** The interactive loop *)

Section Interactive.
Import Py Commands.

Variable logo : string.
Variable agent_state : Type.
Variable process_direct :
  agent_state -> string -> string -> outcome (option string) * agent_state.
Variable session_id : string.
Variable markdown : bool.

Local Abbreviation run_interactive :=
  (Commands.run_interactive logo agent_state process_direct session_id markdown).



End Interactive.



(** The chat of the first witness, evaluated: one turn, then goodbye. *)
Example interactive_chat :
  Commands.run_interactive "nb" nat Commands.echo_agent "default" false
    [Commands.Line "hi"; Commands.Line " EXIT "; Commands.Line "are you there?"] 0%nat []
  = ([Commands.Markup ""; Commands.Markup "[cyan]nb nanobot[/cyan]";
      Commands.Text "You said: hi"; Commands.Markup ""; Commands.goodbye],
     1%nat, Commands.Goodbye).
Proof. reflexivity. Qed.

(** X11 at a concrete input: the word in mixed case, inside a longer
    name. *)
Lemma find_by_model_matches_keyword_anywhere_witness :
  is_Some (Registry.find_by_model "my-OpenRouter/auto").
Proof.
  apply (proj1 (find_by_model_matches_keyword_anywhere "my-OpenRouter/auto")).
  by exists "my-", "OpenRouter", "/auto".
Defined.

(** X12 at a concrete input: an unknown provider name and an OpenRouter
    key. *)
Lemma find_gateway_signs_witness :
  is_Some (Registry.find_gateway (Some "mystery") (Some "sk-or-v1-abc") None).
Proof.
  apply (proj1 (find_gateway_signs (Some "mystery") (Some "sk-or-v1-abc") None)).
  right. left. by exists "sk-or-v1-abc".
Defined.
